(** * Regulation Observer dashboard: filter, sort and pagination logic

    A shallow embedding of [frontend/gov-reg-analyzer-site/src/App.tsx] and
    of the search handler of [components/FilterBar.tsx].  [App.tsx] holds two
    revisions of the component one after the other; they are embedded as the
    modules [App1] (lines 1-208) and [App2] (lines 209-431).

    Conventions of the embedding.
    - A JSON number is a rational ([Q]).  Every finite double is a rational
      and the comparators only look at the sign of a difference of two
      finite doubles, which is the sign of the exact difference.
    - [undefined] and [NaN] are explicit ([jsval], [option Q]); reading a
      property of [undefined] raises, which is [TypeError] in [result].
    - Strings are ASCII strings; [toLowerCase] maps A-Z to a-z.
    - [Array.prototype.sort] is the stable sort ECMAScript requires,
      written as a right-to-left insertion sort that calls the comparator
      with the element that came first in the array as first argument.
      For a comparator that is a consistent total preorder the result does
      not depend on that choice; where a comparator is not, the statements
      evaluate both orders of the input.
    - [localeCompare] depends on the host's collation and is a parameter.
    - [sortStates] is a plain object: a finite map of its own keys, behind
      which a read finds the properties of [Object.prototype]. *)

From Stdlib Require Import QArith Qround Lqa Ascii String.
From stdpp Require Import gmap strings list sorting pretty.

Local Open Scope string_scope.
Local Open Scope Z_scope.

(** ** Exceptions *)

Inductive result (A : Type) : Type :=
  | Ok (a : A)
  | TypeError.
Arguments Ok {A} a.
Arguments TypeError {A}.

#[export] Instance result_bind : MBind result := fun A B k r =>
  match r with
  | Ok a => k a
  | TypeError => TypeError
  end.

(** ** Data model (the interfaces [AgencyData] and [Agency]) *)

Record AgencyData := {
  year : Z;
  wordCount : Q;
  avgSentenceLength : Q;
  restrictiveness : Q;
  sentiment : Q
}.

Record Agency := {
  agency : string;
  data : list AgencyData
}.

(** ** JavaScript values and primitives *)

Inductive jsval : Type :=
  | Num (q : Q)
  | Undefined.

(** [d[key]] for a record [d] and a string key. *)
Definition field (d : AgencyData) (key : string) : jsval :=
  if String.eqb key "year" then Num (inject_Z (year d))
  else if String.eqb key "wordCount" then Num (wordCount d)
  else if String.eqb key "avgSentenceLength" then Num (avgSentenceLength d)
  else if String.eqb key "restrictiveness" then Num (restrictiveness d)
  else if String.eqb key "sentiment" then Num (sentiment d)
  else Undefined.

(** [arr[i]] for a numeric index; out of range is [undefined] ([None]). *)
Definition index {A} (l : list A) (i : Z) : option A :=
  if i <? 0 then None else nth_error l (Z.to_nat i).

(** [x[key]] where [x] may be [undefined]: the access raises. *)
Definition prop (x : option AgencyData) (key : string) : result jsval :=
  match x with
  | Some d => Ok (field d key)
  | None => TypeError
  end.

(** [x?.[key]]: optional chaining never raises. *)
Definition prop_opt (x : option AgencyData) (key : string) : jsval :=
  match x with
  | Some d => field d key
  | None => Undefined
  end.

(** [v || 0] on a number or [undefined]. *)
Definition or_zero (v : jsval) : Q :=
  match v with
  | Num q => q
  | Undefined => 0%Q
  end.

(** [ToNumber]; [None] is [NaN]. *)
Definition to_number (v : jsval) : option Q :=
  match v with
  | Num q => Some q
  | Undefined => None
  end.

(** [x - y]. *)
Definition js_sub (x y : jsval) : option Q :=
  match to_number x, to_number y with
  | Some a, Some b => Some (a - b)%Q
  | _, _ => None
  end.

(** What [sort] makes of a comparator's result [v]: [Lt] when [v < 0]
    (first argument first), [Gt] when [v > 0], [Eq] for [0] and [NaN]. *)
Definition sort_order (v : option Q) : comparison :=
  match v with
  | Some q => (q ?= 0)%Q
  | None => Eq
  end.

(** [truthy] for an optional string parameter: [undefined] and [""] are
    falsy. *)
Definition truthy (m : option string) : bool :=
  match m with
  | Some s => negb (String.eqb s "")
  | None => false
  end.

(** [toLowerCase] on ASCII text, where it maps A-Z to a-z letter by letter.
    Outside ASCII the function of the source follows Unicode and the
    context of a letter; the statements below use of it only that a
    non-empty text stays non-empty. *)
Definition to_lower_ascii (c : ascii) : ascii :=
  let n := nat_of_ascii c in
  if ((65 <=? n)%nat && (n <=? 90)%nat)%bool then ascii_of_nat (n + 32) else c.

Fixpoint toLowerCase (s : string) : string :=
  match s with
  | EmptyString => EmptyString
  | String c s' => String (to_lower_ascii c) (toLowerCase s')
  end.

(** [s.includes(sub)]: [sub] occurs in [s] at some position. *)
Fixpoint includes (s sub : string) : bool :=
  (String.prefix sub s ||
   match s with
   | EmptyString => false
   | String _ s' => includes s' sub
   end)%bool.

(** [names.includes(name)] on an array of strings. *)
Definition array_includes (names : list string) (name : string) : bool :=
  existsb (String.eqb name) names.

(** [arr.slice(start, end)], negative indices counting from the end. *)
Definition slice {A} (l : list A) (start stop : Z) : list A :=
  let len := Z.of_nat (length l) in
  let k := if start <? 0 then Z.max (len + start) 0 else Z.min start len in
  let final := if stop <? 0 then Z.max (len + stop) 0 else Z.min stop len in
  firstn (Z.to_nat (final - k)) (skipn (Z.to_nat k) l).

(** ** [Array.prototype.sort] *)

Section ArraySort.
Context {A : Type}.

(** The comparator cannot raise. *)
Section Pure.
Variable cmp : A -> A -> option Q.

Fixpoint insert_sorted (x : A) (l : list A) : list A :=
  match l with
  | [] => [x]
  | y :: l' =>
      match sort_order (cmp x y) with
      | Gt => y :: insert_sorted x l'
      | _ => x :: y :: l'
      end
  end.

Fixpoint array_sort (l : list A) : list A :=
  match l with
  | [] => []
  | x :: l' => insert_sorted x (array_sort l')
  end.
End Pure.

(** The comparator may raise; the exception leaves [sort]. *)
Section Raising.
Variable cmp : A -> A -> result (option Q).

Fixpoint insert_sortedM (x : A) (l : list A) : result (list A) :=
  match l with
  | [] => Ok [x]
  | y :: l' =>
      v ← cmp x y;
      match sort_order v with
      | Gt => r ← insert_sortedM x l'; Ok (y :: r)
      | _ => Ok (x :: y :: l')
      end
  end.

Fixpoint array_sortM (l : list A) : result (list A) :=
  match l with
  | [] => Ok []
  | x :: l' => s ← array_sortM l'; insert_sortedM x s
  end.
End Raising.
End ArraySort.

(** ** The component [App] *)

(** The two state variables of [App] (lines 8-9 and 216-217). *)
Record AppState := {
  selectedAgencies : list Agency;
  currentPage : Z
}.

Definition agenciesPerPage : Z := 5.

(** [agenciesData.map(agency => ({...agency, data: agency.data.filter(d =>
    [2024, 2025].includes(d.year))}))]; [agenciesData] is the imported
    JSON document. *)
Definition filteredAgenciesData (agenciesData : list Agency) : list Agency :=
  map (fun a =>
         {| agency := agency a;
            data := List.filter
                      (fun d => existsb (Z.eqb (year d)) [2024; 2025])
                      (data a) |})
      agenciesData.

(** The value a comparator of [handleFilter] reads:
    [rec.data[len.data.length - 1][metric]]. *)
Definition lastValue (rec len : Agency) (metric : string) : result jsval :=
  prop (index (data rec) (Z.of_nat (length (data len)) - 1)) metric.

(** The direction of a sort state, "asc" or "desc". *)
Inductive sortDirection := asc | desc.

(** The column of a sort state.  The headers call [handleSort] with
    "agency" (lines 122, 334) or with [year.toString()] (lines 130, 347):
    [ColYear y] is the string of the number [y], and [Number] gives [y]
    back. *)
Inductive sortColumn :=
  | ColAgency
  | ColYear (y : Z).

(** An entry of [sortStates]; [None] is [null]. *)
Record sortState := {
  column : option sortColumn;
  direction : option sortDirection
}.

#[export] Instance sortDirection_eq_dec : EqDecision sortDirection.
Proof. solve_decision. Defined.

#[export] Instance sortColumn_eq_dec : EqDecision sortColumn.
Proof. solve_decision. Defined.

(** [localeCompare] returns a negative number, zero or a positive number. *)
Definition number_of_comparison (c : comparison) : option Q :=
  match c with
  | Lt => Some (-1)%Q
  | Eq => Some 0%Q
  | Gt => Some 1%Q
  end.

(** The keys of [sortStates], which are the tables [TableSection] renders
    (lines 105 and 312). *)
Definition metrics : list string :=
  ["wordCount"; "avgSentenceLength"; "restrictiveness"; "sentiment"].

(** *** Parts that are the same in both revisions *)

(** The names a read of a plain object finds without an own key: the
    properties of [Object.prototype].  Each is a function or an object
    that has no property [column]. *)
Definition objectPrototypeNames : list string :=
  ["constructor"; "hasOwnProperty"; "isPrototypeOf"; "propertyIsEnumerable";
   "toLocaleString"; "toString"; "valueOf"; "__proto__";
   "__defineGetter__"; "__defineSetter__"; "__lookupGetter__";
   "__lookupSetter__"].

(** [handleSort] (lines 68-75 and 277-284), as the function it passes to
    [setSortStates].  For a metric that is no own key, [prev[metric]] is
    an inherited property, whose [column] is [undefined], so that the new
    direction is "asc" and the computed key becomes an own key; or it is
    [undefined], and reading [current.column] raises. *)
Definition handleSort (metric : string) (col : sortColumn)
    (prev : gmap string sortState) : result (gmap string sortState) :=
  match prev !! metric with
  | None =>
      if bool_decide (metric ∈ objectPrototypeNames)
      then Ok (<[metric := {| column := Some col; direction := Some asc |}]> prev)
      else TypeError
  | Some current =>
      let newDirection :=
        if (bool_decide (column current = Some col) &&
            bool_decide (direction current = Some asc))%bool
        then desc else asc in
      Ok (<[metric := {| column := Some col; direction := Some newDirection |}]> prev)
  end.

Section TableSection.
(** [String.prototype.localeCompare] depends on the host's collation. *)
Variable localeCompare : string -> string -> comparison.

(** The constant [filteredAgenciesData] the closures read. *)
Variable agencies : list Agency.

(** The comparator of [getSortedAgencies] (lines 81-94 and 290-303). *)
Definition sortComparator (metric : string) (col : sortColumn)
    (dir : sortDirection) (a b : Agency) : option Q :=
  match col with
  | ColAgency =>
      match dir with
      | asc => number_of_comparison (localeCompare (agency a) (agency b))
      | desc => number_of_comparison (localeCompare (agency b) (agency a))
      end
  | ColYear y =>
      let aValue :=
        or_zero (prop_opt (List.find (fun d => year d =? y) (data a)) metric) in
      let bValue :=
        or_zero (prop_opt (List.find (fun d => year d =? y) (data b)) metric) in
      match dir with
      | asc => Some (aValue - bValue)%Q
      | desc => Some (bValue - aValue)%Q
      end
  end.

(** [getSortedAgencies] (lines 77-96 and 286-305).  For a metric that is
    no own key, [sortStates[metric]] is an inherited property without a
    [column], and the copy of the dataset is returned, or it is
    [undefined], and reading [sortState.column] raises. *)
Definition getSortedAgencies (sortStates : gmap string sortState)
    (metric : string) : result (list Agency) :=
  match sortStates !! metric with
  | None =>
      if bool_decide (metric ∈ objectPrototypeNames)
      then Ok agencies
      else TypeError
  | Some st =>
      match column st, direction st with
      | Some col, Some dir =>
          Ok (array_sort (sortComparator metric col dir) agencies)
      | _, _ => Ok agencies
      end
  end.

(** [Math.ceil(totalAgencies / agenciesPerPage)] (lines 98-99, 307-308). *)
Definition totalPages : Z :=
  Qceiling (inject_Z (Z.of_nat (length agencies)) / inject_Z agenciesPerPage).

(** The page a sorted sequence shows:
    [sorted.slice(startIndex, startIndex + agenciesPerPage)]. *)
Definition pageSlice (sorted : list Agency) (page : Z) : list Agency :=
  let startIndex := (page - 1) * agenciesPerPage in
  slice sorted startIndex (startIndex + agenciesPerPage).

(** The buttons Previous and Next (lines 158, 166 and 380, 388). *)
Definition onPrevious (st : AppState) : AppState :=
  {| selectedAgencies := selectedAgencies st;
     currentPage := Z.max (currentPage st - 1) 1 |}.

Definition onNext (st : AppState) : AppState :=
  {| selectedAgencies := selectedAgencies st;
     currentPage := Z.min (currentPage st + 1) totalPages |}.
End TableSection.

(** [handleSearch] of [FilterBar.tsx] (lines 18-21): the text typed in the
    search box reaches [onFilter] in lower case. *)
Definition handleSearch {S} (onFilter : string -> option (list string) -> option string -> S)
    (text : string) : S :=
  onFilter "search" None (Some (toLowerCase text)).

(** *** First revision (lines 1-208) *)

Module App1.

(** The local variable [filtered] of [handleFilter] when the handler
    reaches [setSelectedAgencies] (lines 30-53). *)
Definition filtered (agencies : list Agency) (filterType : string)
    (selected : option (list string)) (metric : option string)
    : result (list Agency) :=
  if (String.eqb filterType "top3" && truthy metric)%bool then
    sorted ← array_sortM
               (fun a b =>
                  aValue ← lastValue a a (default "" metric);
                  bValue ← lastValue b b (default "" metric);
                  Ok (js_sub bValue aValue))
               agencies;
    Ok (slice sorted 0 3)
  else if (String.eqb filterType "bottom3" && truthy metric)%bool then
    sorted ← array_sortM
               (fun a b =>
                  aValue ← lastValue a a (default "" metric);
                  bValue ← lastValue b b (default "" metric);
                  Ok (js_sub aValue bValue))
               agencies;
    Ok (slice sorted 0 3)
  else if (String.eqb filterType "specific" && bool_decide (is_Some selected))%bool then
    Ok (List.filter
          (fun a => array_includes (default [] selected) (agency a))
          agencies)
  else if (String.eqb filterType "search" && truthy metric)%bool then
    Ok (List.filter
          (fun a => includes (toLowerCase (agency a)) (default "" metric))
          agencies)
  else
    Ok (slice agencies 0 3).

(** [handleFilter] (lines 29-56). *)
Definition handleFilter (agencies : list Agency) (filterType : string)
    (selected : option (list string)) (metric : option string)
    (st : AppState) : result AppState :=
  f ← filtered agencies filterType selected metric;
  Ok {| selectedAgencies := f; currentPage := 1 |}.

(** The initial [sortStates] (lines 59-66). *)
Definition initialSortStates : gmap string sortState :=
  list_to_map
    (map (fun m => (m, {| column := None; direction := None |})) metrics).

(** The rows every one of the four tables renders (line 101, used at
    line 138 for each metric). *)
Definition paginatedAgencies (localeCompare : string -> string -> comparison)
    (agencies : list Agency) (sortStates : gmap string sortState)
    (page : Z) (metric : string) : result (list Agency) :=
  sorted ← getSortedAgencies localeCompare agencies sortStates "wordCount";
  Ok (pageSlice sorted page).

End App1.

(** *** Second revision (lines 209-431) *)

Module App2.

(** The local variable [filtered] of [handleFilter] (lines 238-261). *)
Definition filtered (agencies : list Agency) (filterType : string)
    (selected : option (list string)) (metric : option string)
    : result (list Agency) :=
  if (String.eqb filterType "top3" && truthy metric)%bool then
    sorted ← array_sortM
               (fun a b =>
                  aValue ← lastValue a a (default "" metric);
                  bValue ← lastValue b a (default "" metric);
                  Ok (js_sub bValue aValue))
               agencies;
    Ok (slice sorted 0 3)
  else if (String.eqb filterType "bottom3" && truthy metric)%bool then
    sorted ← array_sortM
               (fun a b =>
                  aValue ← lastValue a a (default "" metric);
                  bValue ← lastValue b a (default "" metric);
                  Ok (js_sub aValue bValue))
               agencies;
    Ok (slice sorted 0 3)
  else if (String.eqb filterType "specific" && bool_decide (is_Some selected))%bool then
    Ok (List.filter
          (fun a => array_includes (default [] selected) (agency a))
          agencies)
  else if (String.eqb filterType "search" && truthy metric)%bool then
    Ok (List.filter
          (fun a => includes (toLowerCase (agency a)) (default "" metric))
          agencies)
  else
    Ok (slice agencies 0 3).

(** [handleFilter] (lines 237-264). *)
Definition handleFilter (agencies : list Agency) (filterType : string)
    (selected : option (list string)) (metric : option string)
    (st : AppState) : result AppState :=
  f ← filtered agencies filterType selected metric;
  Ok {| selectedAgencies := f; currentPage := 1 |}.

(** The initial [sortStates] (lines 267-275). *)
Definition initialSortStates : gmap string sortState :=
  list_to_map
    (map (fun m => (m, {| column := Some (ColYear 2025); direction := Some desc |}))
         metrics).

(** The rows the table of [metric] renders (lines 313-315). *)
Definition paginatedAgencies (localeCompare : string -> string -> comparison)
    (agencies : list Agency) (sortStates : gmap string sortState)
    (page : Z) (metric : string) : result (list Agency) :=
  sorted ← getSortedAgencies localeCompare agencies sortStates metric;
  Ok (pageSlice sorted page).

End App2.


(** ** Vocabulary of the statements *)

(** The four metrics of the dashboard, the key each one has in a record
    and the number it holds there. *)
Inductive Metric := WordCount | AvgSentenceLength | Restrictiveness | Sentiment.

Definition metric_key (m : Metric) : string :=
  match m with
  | WordCount => "wordCount"
  | AvgSentenceLength => "avgSentenceLength"
  | Restrictiveness => "restrictiveness"
  | Sentiment => "sentiment"
  end.

Definition metric_value (m : Metric) (d : AgencyData) : Q :=
  match m with
  | WordCount => wordCount d
  | AvgSentenceLength => avgSentenceLength d
  | Restrictiveness => restrictiveness d
  | Sentiment => sentiment d
  end.

(** The record of the latest year of a series, found by scanning the whole
    series for the greatest year (the later record wins between equal
    years). *)
Definition latestRecord (ds : list AgencyData) : option AgencyData :=
  foldl (fun best d =>
           match best with
           | Some b => if year b <=? year d then Some d else Some b
           | None => Some d
           end)
        None ds.

(** The latest-year value of a metric for an agency. *)
Definition latestValue (m : Metric) (a : Agency) : Q :=
  from_option (metric_value m) 0%Q (latestRecord (data a)).

(** The value of a metric in the last record of the series, which is what
    the comparators of [handleFilter] read. *)
Definition lastRecordValue (m : Metric) (a : Agency) : Q :=
  from_option (metric_value m) 0%Q (last (data a)).

(** A series in ascending year order. *)
Definition ascendingYears (a : Agency) : Prop :=
  StronglySorted (fun d1 d2 => year d1 <= year d2) (data a).

(** Every agency has at least one year record. *)
Definition nonEmptySeries (l : list Agency) : Prop :=
  Forall (fun a => data a <> []) l.

(** No two positions of the list hold agencies with equal values. *)
Definition distinctValues (v : Agency -> Q) (l : list Agency) : Prop :=
  forall i j a b,
    l !! i = Some a -> l !! j = Some b -> (v a == v b)%Q -> i = j.

(** [precedes cmp x y]: the comparator does not ask for [y] before [x]. *)
Definition precedes {A} (cmp : A -> A -> option Q) (x y : A) : Prop :=
  sort_order (cmp x y) <> Gt.

(** [bValue - aValue] and [aValue - bValue] for a per-agency value [v]:
    the comparators of modes "top3" and "bottom3" once the reads have
    succeeded. *)
Definition byValueDesc (v : Agency -> Q) (a b : Agency) : option Q :=
  Some (v b - v a)%Q.

Definition byValueAsc (v : Agency -> Q) (a b : Agency) : option Q :=
  Some (v a - v b)%Q.

(** The other direction. *)
Definition toggle (d : sortDirection) : sortDirection :=
  match d with
  | asc => desc
  | desc => asc
  end.

(** The sort states a sequence of header clicks leads to from [init]; the
    headers are those of the tables of the four metrics (lines 105, 122,
    130 and 312, 334, 347). *)
Inductive reachableSortStates (init : gmap string sortState)
    : gmap string sortState -> Prop :=
  | reach_init : reachableSortStates init init
  | reach_click (s s' : gmap string sortState) (metric : string) (col : sortColumn) :
      reachableSortStates init s ->
      metric ∈ metrics ->
      handleSort metric col s = Ok s' ->
      reachableSortStates init s'.

(** The state [App] starts in ([useState([])], [useState(1)]). *)
Definition initialState : AppState :=
  {| selectedAgencies := []; currentPage := 1 |}.

(** ** Sample datasets *)

(** A record of the year 2024 with the given word count. *)
Definition record2024 (words : Q) : AgencyData :=
  {| year := 2024; wordCount := words; avgSentenceLength := 0;
     restrictiveness := 0; sentiment := 0 |}.

(** The agencies of the specification's scenario, and a fourth one. *)
Definition agencyA : Agency := {| agency := "A"; data := [record2024 10] |}.
Definition agencyB : Agency := {| agency := "B"; data := [record2024 30] |}.
Definition agencyC : Agency := {| agency := "C"; data := [record2024 20] |}.
Definition agencyD : Agency := {| agency := "D"; data := [record2024 40] |}.

Definition fourAgencies : list Agency := [agencyA; agencyB; agencyC; agencyD].

Definition treasury : Agency :=
  {| agency := "Department of the Treasury"; data := [record2024 50] |}.

(** Six agencies with the same word count. *)
Definition sixTied : list Agency :=
  map (fun n => {| agency := n; data := [record2024 10] |})
      ["A1"; "A2"; "A3"; "A4"; "A5"; "A6"].

(** Six agencies with six different word counts. *)
Definition sixDistinct : list Agency :=
  map (fun p => {| agency := fst p; data := [record2024 (inject_Z (snd p))] |})
      [("A1", 4); ("A2", 1); ("A3", 6); ("A4", 2); ("A5", 5); ("A6", 3)].

(** Twelve agencies. *)
Definition twelveAgencies : list Agency :=
  map (fun n => {| agency := n; data := [record2024 10] |})
      ["A01"; "A02"; "A03"; "A04"; "A05"; "A06";
       "A07"; "A08"; "A09"; "A10"; "A11"; "A12"].

(** An agency whose only record is outside 2024 and 2025: the year
    restriction leaves it with an empty series. *)
Definition staleAgency : Agency :=
  {| agency := "Old";
     data := [{| year := 2023; wordCount := 5; avgSentenceLength := 0;
                 restrictiveness := 0; sentiment := 0 |}] |}.

(** An agency whose series lists 2025 before 2024, and two whose series
    are in ascending year order; only the restrictiveness is of interest. *)
Definition restrictivenessRecord (y : Z) (r : Q) : AgencyData :=
  {| year := y; wordCount := 0; avgSentenceLength := 0;
     restrictiveness := r; sentiment := 0 |}.

Definition agencyP : Agency :=
  {| agency := "P";
     data := [restrictivenessRecord 2025 (1 # 4); restrictivenessRecord 2024 1] |}.

Definition agencyQ : Agency :=
  {| agency := "Q";
     data := [restrictivenessRecord 2024 (3 # 4); restrictivenessRecord 2025 (1 # 2)] |}.

Definition agencyR : Agency :=
  {| agency := "R";
     data := [restrictivenessRecord 2024 (1 # 10); restrictivenessRecord 2025 (1 # 8)] |}.

(** An agency with one record, in 2024, and one with records in 2024 and
    2025. *)
Definition oneYear : Agency :=
  {| agency := "X"; data := [record2024 100] |}.

Definition twoYears : Agency :=
  {| agency := "Y";
     data := [record2024 500;
              {| year := 2025; wordCount := 50; avgSentenceLength := 0;
                 restrictiveness := 0; sentiment := 0 |}] |}.

(** ** Further parts of the source *)

(** The effect [App] runs once on mount (lines 17-22 and 225-230, the same
    in both revisions): the three agencies with the largest word count in
    their last record become the selection. *)
Definition mountEffect (agencies : list Agency) (st : AppState) : result AppState :=
  sorted ← array_sortM
             (fun a b =>
                bValue ← lastValue b b "wordCount";
                aValue ← lastValue a a "wordCount";
                Ok (js_sub bValue aValue))
             agencies;
  Ok {| selectedAgencies := slice sorted 0 3; currentPage := currentPage st |}.

(** An option of the multi-select of [FilterBar]. *)
Record selectOption := {
  label : string;
  value : string
}.

(** [agencyOptions] (lines 24-27 and 232-235 of [App.tsx]). *)
Definition agencyOptions (agencies : list Agency) : list selectOption :=
  map (fun a => {| label := agency a; value := agency a |}) agencies.

(** [handleAgencyChange] of [FilterBar.tsx] (lines 13-16). *)
Definition handleAgencyChange {S}
    (onFilter : string -> option (list string) -> option string -> S)
    (selected : list selectOption) : S :=
  onFilter "specific" (Some (map value selected)) None.

(** The [disabled] attribute of the buttons Previous and Next (lines 159,
    167 and 381, 389). *)
Definition previousDisabled (st : AppState) : bool :=
  currentPage st =? 1.

Definition nextDisabled (agencies : list Agency) (st : AppState) : bool :=
  currentPage st =? totalPages agencies.

(** The value the comparator of [getSortedAgencies] reads for a year
    column: the metric in the first record of that year, 0 without one. *)
Definition valueInYear (metric : string) (y : Z) (a : Agency) : Q :=
  or_zero (prop_opt (List.find (fun d => year d =? y) (data a)) metric).

(** *** The charts *)

(** A dataset handed to the bar chart. *)
Module Dataset.
Record t := {
  label : string;
  data : list Q;
  backgroundColor : option string;
  borderColor : option string;
  borderWidth : Z
}.
End Dataset.

(** What a chart is built from: its labels, numbers in the earlier chart
    section and strings in the later one, and its datasets. *)
Record chartData (L : Type) := {
  labels : list L;
  datasets : list Dataset.t
}.
Arguments labels {L} _.
Arguments datasets {L} _.

(** [keyof AgencyData]: the year or one of the four metrics. *)
Inductive AgencyDataKey :=
  | KeyYear
  | KeyMetric (m : Metric).

Definition key_value (k : AgencyDataKey) (d : AgencyData) : Q :=
  match k with
  | KeyYear => inject_Z (year d)
  | KeyMetric m => metric_value m d
  end.

Definition years : list Z := [2024; 2025].

Definition colors : list string :=
  ["#FFD700"; "#A9A9A9"; "#808080"; "#DAA520"; "#696969"].

(** [colors[index % colors.length]]. *)
Definition colorOf (index : nat) : option string :=
  colors !! (index mod length colors)%nat.

Section Charts.
(** Sum and quotient of two doubles; both round, so they are left open. *)
Variable fadd : Q -> Q -> Q.
Variable fdiv : Q -> Q -> Q.

(** The value plotted for a record: word counts in millions. *)
Definition plotted (isWordCount : bool) (q : Q) : Q :=
  if isWordCount then fdiv q 1000000 else q.

(** [createChartData] of the earlier chart section ([FilterBar.tsx], lines
    131-142). *)
Definition createChartData1 (agencies : list Agency) (metric : AgencyDataKey)
    : chartData Z :=
  {| labels := years;
     datasets :=
       imap (fun index a =>
               {| Dataset.label := agency a;
                  Dataset.data :=
                    map (fun d =>
                           plotted
                             (match metric with
                              | KeyMetric WordCount => true
                              | _ => false
                              end)
                             (key_value metric d))
                        (List.filter (fun d => existsb (Z.eqb (year d)) years)
                                     (data a));
                  Dataset.backgroundColor := colorOf index;
                  Dataset.borderColor := colorOf index;
                  Dataset.borderWidth := 1 |})
            agencies |}.

(** The value the later chart section sorts an agency by: the sum of the
    metric over the records of the two years (lines 80-85); [d[metric] || 0]
    is the number [d[metric]] itself. *)
Definition chartTotal (m : Metric) (a : Agency) : Q :=
  foldl (fun sum d => fadd sum (metric_value m d)) 0%Q
        (List.filter (fun d => existsb (Z.eqb (year d)) years) (data a)).

(** [sortedAgencies] of [createChartData] ([ChartSection.tsx], lines
    79-87). *)
Definition sortedAgencies (agencies : list Agency) (m : Metric)
    (dir : sortDirection) : list Agency :=
  array_sort
    (fun a b =>
       let aValue := chartTotal m a in
       let bValue := chartTotal m b in
       match dir with
       | desc => Some (bValue - aValue)%Q
       | asc => Some (aValue - bValue)%Q
       end)
    agencies.

(** The records a dataset plots, in the order it plots them (lines
    93-95). *)
Definition plottedRecords (a : Agency) : list AgencyData :=
  array_sort (fun d1 d2 => Some (inject_Z (year d1 - year d2)))
             (List.filter (fun d => existsb (Z.eqb (year d)) years) (data a)).

(** [String(year)] for the numbers of [years]. *)
Definition yearString (y : Z) : string := pretty y.

(** [createChartData] of the later chart section ([ChartSection.tsx],
    lines 75-102). *)
Definition createChartData2 (agencies : list Agency) (m : Metric)
    (dir : sortDirection) : chartData string :=
  {| labels := map yearString years;
     datasets :=
       imap (fun index a =>
               {| Dataset.label := agency a;
                  Dataset.data :=
                    map (fun d =>
                           plotted
                             (match m with WordCount => true | _ => false end)
                             (metric_value m d))
                        (plottedRecords a);
                  Dataset.backgroundColor := colorOf index;
                  Dataset.borderColor := colorOf index;
                  Dataset.borderWidth := 1 |})
            (sortedAgencies agencies m dir) |}.
End Charts.

(** * Properties *)

(** ** Facts about the primitives *)

Lemma field_metric_key (m : Metric) (d : AgencyData) :
  field d (metric_key m) = Num (metric_value m d).
Proof. by destruct m. Qed.

Lemma truthy_metric_key (m : Metric) : truthy (Some (metric_key m)) = true.
Proof. by destruct m. Qed.

Lemma slice_0_3 {A} (l : list A) : slice l 0 3 = firstn 3 l.
Proof.
  unfold slice. cbn [Z.ltb Z.compare].
  rewrite (Z.min_l 0) by lia. rewrite Z.sub_0_r.
  change (Z.to_nat 0) with 0%nat. rewrite drop_0.
  destruct (Z.min_spec 3 (Z.of_nat (length l))) as [[Hlt ->]|[Hle ->]].
  - done.
  - rewrite Nat2Z.id, firstn_all. symmetry. apply firstn_all2. lia.
Qed.

Lemma index_last {A} (l : list A) :
  index l (Z.of_nat (length l) - 1) = last l.
Proof.
  unfold index. destruct l as [|x l]; [done|].
  cbn [length]. destruct (Z.ltb_spec (Z.of_nat (S (length l)) - 1) 0); [lia|].
  replace (Z.to_nat (Z.of_nat (S (length l)) - 1)) with (length l) by lia.
  rewrite last_lookup. cbn [length Nat.pred].
  generalize (x :: l) (length l). clear. intros l n.
  revert n. induction l as [|y l IH]; intros [|n]; cbn; auto.
Qed.

Lemma lastValue_self (m : Metric) (a : Agency) :
  data a <> [] ->
  lastValue a a (metric_key m) = Ok (Num (lastRecordValue m a)).
Proof.
  intros Hne. unfold lastValue, lastRecordValue. rewrite index_last.
  destruct (last (data a)) as [d|] eqn:Hl.
  - cbn. by rewrite field_metric_key.
  - apply last_None in Hl. done.
Qed.

Lemma latestRecord_snoc (ds : list AgencyData) (d : AgencyData) :
  Forall (fun d' => year d' <= year d) ds ->
  latestRecord (ds ++ [d]) = Some d.
Proof.
  unfold latestRecord. rewrite foldl_app. cbn.
  set (f := fun best d0 => _).
  assert (Hgen : forall ds0 (acc : option AgencyData),
             Forall (fun d' => year d' <= year d) ds0 ->
             from_option (fun b => year b <= year d) True acc ->
             from_option (fun b => year b <= year d) True (foldl f acc ds0)).
  { induction ds0 as [|d0 ds0 IH]; intros acc Hall Hacc; [done|].
    inversion Hall; subst. cbn. apply IH; [done|].
    unfold f. destruct acc as [b|]; cbn; [|done].
    destruct (Z.leb_spec (year b) (year d0)); cbn in *; lia. }
  intros Hall. specialize (Hgen ds None Hall I).
  destruct (foldl f None ds) as [b|]; cbn in *; [|done].
  destruct (Z.leb_spec (year b) (year d)); [done|lia].
Qed.

Lemma latestRecord_last (a : Agency) :
  ascendingYears a -> latestRecord (data a) = last (data a).
Proof.
  unfold ascendingYears. destruct (data a) as [|d ds] using rev_ind; [done|].
  intros Hs. rewrite last_snoc. apply latestRecord_snoc.
  apply StronglySorted_app in Hs as (Hs & _ & _).
  apply Forall_forall. intros d' Hd'. apply Hs; [done|]. apply list_elem_of_singleton. done.
Qed.

Lemma latestValue_last (m : Metric) (a : Agency) :
  ascendingYears a -> latestValue m a = lastRecordValue m a.
Proof.
  intros H. unfold latestValue, lastRecordValue. by rewrite latestRecord_last.
Qed.

(** ** Facts about [Array.prototype.sort] *)

Section ArraySortFacts.
Context {A : Type}.
Variable cmp : A -> A -> option Q.

Lemma insert_sorted_perm (x : A) (l : list A) :
  insert_sorted cmp x l ≡ₚ x :: l.
Proof.
  induction l as [|y l IH]; cbn; [done|].
  destruct (sort_order (cmp x y)); try done.
  rewrite IH. apply Permutation_swap.
Qed.

Lemma array_sort_perm (l : list A) : array_sort cmp l ≡ₚ l.
Proof.
  induction l as [|x l IH]; cbn; [done|].
  by rewrite insert_sorted_perm, IH.
Qed.

Lemma array_sort_length (l : list A) : length (array_sort cmp l) = length l.
Proof. apply Permutation_length, array_sort_perm. Qed.

(** Stability: elements the comparator never separates keep their
    relative order. *)
Section Stable.
Variable P : A -> bool.
Hypothesis P_tied : forall x y, P x = true -> P y = true -> precedes cmp x y.

Lemma insert_sorted_stable (x : A) (l : list A) :
  List.filter P (insert_sorted cmp x l) = List.filter P (x :: l).
Proof.
  induction l as [|y l IH]; [done|].
  cbn [insert_sorted]. destruct (sort_order (cmp x y)) eqn:Hc; try done.
  cbn [List.filter] in *. rewrite IH.
  destruct (P x) eqn:Hx, (P y) eqn:Hy; try done.
  destruct (P_tied x y Hx Hy Hc).
Qed.

Lemma array_sort_stable (l : list A) :
  List.filter P (array_sort cmp l) = List.filter P l.
Proof.
  induction l as [|x l IH]; [done|].
  cbn [array_sort]. rewrite insert_sorted_stable. cbn. by rewrite IH.
Qed.
End Stable.

(** Sortedness, for a comparator that is a consistent total preorder. *)
Section Sorted.
Hypothesis precedes_trans :
  forall x y z, precedes cmp x y -> precedes cmp y z -> precedes cmp x z.
Hypothesis precedes_total :
  forall x y, precedes cmp x y \/ precedes cmp y x.

Lemma insert_sorted_sorted (x : A) (l : list A) :
  StronglySorted (precedes cmp) l ->
  StronglySorted (precedes cmp) (insert_sorted cmp x l).
Proof.
  induction 1 as [|y l Hl IH Hy]; cbn [insert_sorted].
  { repeat constructor. }
  assert (Hyl : StronglySorted (precedes cmp) (y :: l)) by by constructor.
  destruct (sort_order (cmp x y)) eqn:Hc.
  - constructor; [done|]. constructor; [unfold precedes; congruence|].
    eapply Forall_impl; [exact Hy|]. intros z Hz.
    eapply precedes_trans; [|exact Hz]. unfold precedes. congruence.
  - constructor; [done|]. constructor; [unfold precedes; congruence|].
    eapply Forall_impl; [exact Hy|]. intros z Hz.
    eapply precedes_trans; [|exact Hz]. unfold precedes. congruence.
  - constructor; [done|]. rewrite insert_sorted_perm.
    constructor; [|done].
    destruct (precedes_total x y) as [Hxy|Hyx]; [|done]. by destruct Hxy.
Qed.

Lemma array_sort_sorted (l : list A) :
  StronglySorted (precedes cmp) (array_sort cmp l).
Proof.
  induction l as [|x l IH]; cbn [array_sort]; [constructor|].
  by apply insert_sorted_sorted.
Qed.
End Sorted.

(** A comparator that does not raise on the elements of the array makes
    the raising sort return what the pure sort computes. *)
Lemma insert_sortedM_pure (cmpM : A -> A -> result (option Q)) (x : A) (l : list A) :
  (forall y, y ∈ l -> cmpM x y = Ok (cmp x y)) ->
  insert_sortedM cmpM x l = Ok (insert_sorted cmp x l).
Proof.
  induction l as [|y l IH]; intros H; [done|].
  cbn [insert_sortedM insert_sorted]. rewrite H by left. cbn.
  destruct (sort_order (cmp x y)); try done.
  rewrite IH; [done|]. intros z Hz. apply H. by right.
Qed.

Lemma array_sortM_pure (cmpM : A -> A -> result (option Q)) (l : list A) :
  (forall x y, x ∈ l -> y ∈ l -> cmpM x y = Ok (cmp x y)) ->
  array_sortM cmpM l = Ok (array_sort cmp l).
Proof.
  induction l as [|x l IH]; intros H; [done|].
  cbn [array_sortM array_sort]. rewrite IH.
  - cbn. apply insert_sortedM_pure. intros y Hy. apply H; [by left|].
    right. by rewrite <- (array_sort_perm l).
  - intros y z Hy Hz. apply H; by right.
Qed.
End ArraySortFacts.

Lemma StronglySorted_weaken {A} (R R' : A -> A -> Prop) (l : list A) :
  (forall x y, x ∈ l -> y ∈ l -> R x y -> R' x y) ->
  StronglySorted R l -> StronglySorted R' l.
Proof.
  intros HR Hs. induction Hs as [|x l Hl IH Hx]; constructor.
  - apply IH. intros y z Hy Hz. apply HR; by right.
  - rewrite Forall_forall in *. intros y Hy. apply HR; [by left|by right|auto].
Qed.

Lemma StronglySorted_rev {A} (R : A -> A -> Prop) (l : list A) :
  StronglySorted R l -> StronglySorted (fun x y => R y x) (rev l).
Proof.
  induction 1 as [|x l Hl IH Hx]; cbn; [constructor|].
  apply StronglySorted_app. split_and!.
  - intros x1 x2 H1 H2. apply list_elem_of_singleton in H2 as ->.
    rewrite Forall_forall in Hx. apply Hx. apply list_elem_of_In.
    apply in_rev. by apply list_elem_of_In.
  - done.
  - repeat constructor.
Qed.

(** ** The comparators of [handleFilter] on well-formed data *)

Lemma precedes_desc (v : Agency -> Q) (x y : Agency) :
  precedes (byValueDesc v) x y <-> (v y <= v x)%Q.
Proof.
  unfold precedes, byValueDesc, sort_order. rewrite <- Qle_alt. split; intros; lra.
Qed.

Lemma precedes_asc (v : Agency -> Q) (x y : Agency) :
  precedes (byValueAsc v) x y <-> (v x <= v y)%Q.
Proof.
  unfold precedes, byValueAsc, sort_order. rewrite <- Qle_alt. split; intros; lra.
Qed.

Lemma sorted_desc (v : Agency -> Q) (l : list Agency) :
  StronglySorted (fun a b => v b <= v a)%Q (array_sort (byValueDesc v) l).
Proof.
  apply (StronglySorted_weaken (precedes (byValueDesc v))).
  { intros x y _ _. apply precedes_desc. }
  apply array_sort_sorted.
  - intros x y z. rewrite !precedes_desc. lra.
  - intros x y. rewrite !precedes_desc. lra.
Qed.

Lemma sorted_asc (v : Agency -> Q) (l : list Agency) :
  StronglySorted (fun a b => v a <= v b)%Q (array_sort (byValueAsc v) l).
Proof.
  apply (StronglySorted_weaken (precedes (byValueAsc v))).
  { intros x y _ _. apply precedes_asc. }
  apply array_sort_sorted.
  - intros x y z. rewrite !precedes_asc. lra.
  - intros x y. rewrite !precedes_asc. lra.
Qed.

Lemma stable_desc (v : Agency -> Q) (q : Q) (l : list Agency) :
  List.filter (fun a => Qeq_bool (v a) q) (array_sort (byValueDesc v) l)
  = List.filter (fun a => Qeq_bool (v a) q) l.
Proof.
  apply array_sort_stable. intros x y Hx Hy.
  apply Qeq_bool_iff in Hx, Hy. apply precedes_desc. lra.
Qed.

Lemma stable_asc (v : Agency -> Q) (q : Q) (l : list Agency) :
  List.filter (fun a => Qeq_bool (v a) q) (array_sort (byValueAsc v) l)
  = List.filter (fun a => Qeq_bool (v a) q) l.
Proof.
  apply array_sort_stable. intros x y Hx Hy.
  apply Qeq_bool_iff in Hx, Hy. apply precedes_asc. lra.
Qed.

Lemma App1_top3_sorted (l : list Agency) (selected : option (list string)) (m : Metric) :
  nonEmptySeries l ->
  App1.filtered l "top3" selected (Some (metric_key m))
  = Ok (firstn 3 (array_sort (byValueDesc (lastRecordValue m)) l)).
Proof.
  intros Hne. unfold App1.filtered.
  rewrite truthy_metric_key. cbn [String.eqb Ascii.eqb Bool.eqb andb default from_option id].
  rewrite (array_sortM_pure (byValueDesc (lastRecordValue m))).
  - cbn. by rewrite slice_0_3.
  - intros x y Hx Hy. unfold nonEmptySeries in Hne. rewrite Forall_forall in Hne.
    rewrite !lastValue_self by auto. done.
Qed.

Lemma App1_bottom3_sorted (l : list Agency) (selected : option (list string)) (m : Metric) :
  nonEmptySeries l ->
  App1.filtered l "bottom3" selected (Some (metric_key m))
  = Ok (firstn 3 (array_sort (byValueAsc (lastRecordValue m)) l)).
Proof.
  intros Hne. unfold App1.filtered.
  rewrite truthy_metric_key. cbn [String.eqb Ascii.eqb Bool.eqb andb default from_option id].
  rewrite (array_sortM_pure (byValueAsc (lastRecordValue m))).
  - cbn. by rewrite slice_0_3.
  - intros x y Hx Hy. unfold nonEmptySeries in Hne. rewrite Forall_forall in Hne.
    rewrite !lastValue_self by auto. done.
Qed.

(** ** Top-N filter *)

(** C4, as stated, fails: the comparator reads the last record of a
    series, which is the record of the latest year only when the series is
    in ascending year order.  P lists 2025 (restrictiveness 1/4) before
    2024 (restrictiveness 1): mode "top3" ranks P by 1 and puts it before
    Q, whose latest-year value 1/2 is larger than P's 1/4. *)
Lemma top3_ranks_last_record_not_latest_year :
  App1.filtered (filteredAgenciesData [agencyP; agencyQ; agencyR])
    "top3" None (Some "restrictiveness")
  = Ok [agencyP; agencyQ; agencyR] /\
  (latestValue Restrictiveness agencyP == 1 # 4)%Q /\
  (latestValue Restrictiveness agencyQ == 1 # 2)%Q /\
  (latestValue Restrictiveness agencyP < latestValue Restrictiveness agencyQ)%Q.
Proof. split_and!; by vm_compute. Qed.

(** C4, amended.  On a list whose agencies all have a non-empty series,
    mode "top3" of the first revision returns the first three entries of a
    sequence [sorted] that is a rearrangement of the input, is in
    descending order of the value of the metric in the last record of the
    series, and keeps agencies with equal values in their input order; so
    the result has [min 3 (length l)] agencies and none of the agencies
    left out has a larger value than one that is returned.  When the
    series are in ascending year order the value in the last record is the
    latest-year value, and the same holds of the latest-year value.  For
    A (10), B (30), C (20) and metric wordCount the result is B, C, A. *)
Theorem top3_largest_last_record_values_stable :
  (forall (l : list Agency) (selected : option (list string)) (m : Metric),
      nonEmptySeries l ->
      exists sorted : list Agency,
        App1.filtered l "top3" selected (Some (metric_key m)) = Ok (firstn 3 sorted) /\
        sorted ≡ₚ l /\
        StronglySorted (fun a b => lastRecordValue m b <= lastRecordValue m a)%Q sorted /\
        (forall q : Q,
            List.filter (fun a => Qeq_bool (lastRecordValue m a) q) sorted
            = List.filter (fun a => Qeq_bool (lastRecordValue m a) q) l) /\
        length (firstn 3 sorted) = Nat.min 3 (length l) /\
        (forall a b, a ∈ firstn 3 sorted -> b ∈ skipn 3 sorted ->
                     lastRecordValue m b <= lastRecordValue m a)%Q /\
        (Forall ascendingYears l ->
         (forall a, a ∈ l -> latestValue m a = lastRecordValue m a) /\
         StronglySorted (fun a b => latestValue m b <= latestValue m a)%Q sorted /\
         (forall q : Q,
             List.filter (fun a => Qeq_bool (latestValue m a) q) sorted
             = List.filter (fun a => Qeq_bool (latestValue m a) q) l) /\
         (forall a b, a ∈ firstn 3 sorted -> b ∈ skipn 3 sorted ->
                      latestValue m b <= latestValue m a)%Q)) /\
  App1.filtered (filteredAgenciesData [agencyA; agencyB; agencyC])
    "top3" None (Some "wordCount")
  = Ok [agencyB; agencyC; agencyA].
Proof.
  split; [|by vm_compute].
  intros l selected m Hne.
  set (sorted := array_sort (byValueDesc (lastRecordValue m)) l).
  assert (Hperm : sorted ≡ₚ l) by apply array_sort_perm.
  assert (Hsorted : StronglySorted
                      (fun a b => lastRecordValue m b <= lastRecordValue m a)%Q sorted)
    by apply sorted_desc.
  assert (Hcut : forall a b, a ∈ firstn 3 sorted -> b ∈ skipn 3 sorted ->
                             (lastRecordValue m b <= lastRecordValue m a)%Q).
  { intros a b Ha Hb. rewrite <- (take_drop 3 sorted) in Hsorted.
    apply StronglySorted_app in Hsorted as (Hs & _ & _). by apply Hs. }
  exists sorted. split_and!.
  - by apply App1_top3_sorted.
  - done.
  - done.
  - intros q. apply stable_desc.
  - rewrite length_take. by rewrite (Permutation_length Hperm).
  - done.
  - intros Hasc.
    assert (Hval : forall a, a ∈ l -> latestValue m a = lastRecordValue m a).
    { intros a Ha. apply latestValue_last. rewrite Forall_forall in Hasc. auto. }
    split_and!.
    + done.
    + eapply StronglySorted_weaken; [|exact Hsorted].
      intros x y Hx Hy Hxy. cbn beta in Hxy.
      rewrite !Hval; [done| |]; by rewrite <- Hperm.
    + intros q.
      rewrite (filter_ext_in _ (fun a => Qeq_bool (lastRecordValue m a) q) sorted).
      2:{ intros a Ha. rewrite Hval; [done|]. rewrite <- Hperm. by apply list_elem_of_In. }
      rewrite (filter_ext_in _ (fun a => Qeq_bool (lastRecordValue m a) q) l).
      2:{ intros a Ha. rewrite Hval; [done|]. by apply list_elem_of_In. }
      apply stable_desc.
    + intros a b Ha Hb.
      assert (Ha' : a ∈ l).
      { rewrite <- Hperm, <- (take_drop 3 sorted). apply elem_of_app. by left. }
      assert (Hb' : b ∈ l).
      { rewrite <- Hperm, <- (take_drop 3 sorted). apply elem_of_app. by right. }
      rewrite !Hval by done. by apply Hcut.
Qed.

Lemma top3_largest_last_record_values_stable_witness :
  nonEmptySeries [agencyP; agencyQ; agencyR] /\
  exists sorted : list Agency,
    App1.filtered [agencyP; agencyQ; agencyR] "top3" None
      (Some (metric_key Restrictiveness))
    = Ok (firstn 3 sorted) /\
    sorted ≡ₚ [agencyP; agencyQ; agencyR] /\
    StronglySorted
      (fun a b => lastRecordValue Restrictiveness b
                  <= lastRecordValue Restrictiveness a)%Q sorted.
Proof.
  assert (H1 : nonEmptySeries [agencyP; agencyQ; agencyR])
    by (repeat constructor; discriminate).
  split; [exact H1|].
  destruct (proj1 top3_largest_last_record_values_stable
              [agencyP; agencyQ; agencyR] None Restrictiveness H1)
    as (sorted & E & P & S & _).
  exists sorted. split; [exact E|]. split; [exact P|exact S].
Defined.

(** ** Top-N against bottom-N *)

Lemma distinctValues_NoDup (v : Agency -> Q) (l : list Agency) :
  distinctValues v l -> NoDup l.
Proof.
  intros Hd. apply NoDup_alt. intros i j a Hi Hj. by apply (Hd i j a a).
Qed.

Lemma distinctValues_inj (v : Agency -> Q) (l : list Agency) (a b : Agency) :
  distinctValues v l -> a ∈ l -> b ∈ l -> (v a == v b)%Q -> a = b.
Proof.
  intros Hd [i Hi]%list_elem_of_lookup [j Hj]%list_elem_of_lookup Hv.
  assert (i = j) by by apply (Hd i j a b). congruence.
Qed.

(** With pairwise distinct values, sorting ascending is sorting descending
    read backwards. *)
Lemma sort_asc_rev_desc (v : Agency -> Q) (l : list Agency) :
  distinctValues v l ->
  array_sort (byValueAsc v) l = rev (array_sort (byValueDesc v) l).
Proof.
  intros Hd.
  apply (StronglySorted_unique_strong (fun a b => v a <= v b)%Q).
  - intros x1 x2 H1 H2 H12 H21. apply (distinctValues_inj v l); [done| | |lra].
    + by rewrite <- (array_sort_perm (byValueAsc v) l).
    + rewrite <- (array_sort_perm (byValueDesc v) l).
      apply list_elem_of_In, in_rev. by apply list_elem_of_In.
  - apply sorted_asc.
  - apply (StronglySorted_rev (fun a b => v b <= v a)%Q), sorted_desc.
  - rewrite array_sort_perm, <- Permutation_rev. by rewrite array_sort_perm.
Qed.

Lemma take_rev_disjoint {A} (l : list A) (n : nat) (x : A) :
  NoDup l -> (2 * n <= length l)%nat ->
  x ∈ firstn n l -> x ∈ firstn n (rev l) -> False.
Proof.
  intros Hnd Hlen Hx Hy.
  rewrite firstn_rev in Hy.
  apply list_elem_of_In, in_rev, list_elem_of_In in Hy.
  replace (length l - n)%nat with (n + (length l - n - n))%nat in Hy by lia.
  rewrite <- drop_drop in Hy. apply subseteq_drop in Hy.
  rewrite <- (take_drop n l) in Hnd.
  apply NoDup_app in Hnd as (_ & Hdisj & _). by apply (Hdisj x).
Qed.

(** C6, as stated, fails: on six agencies with equal word counts the stable
    sort leaves the input order in both directions, and modes "top3" and
    "bottom3" both return the first three agencies. *)
Lemma top3_bottom3_overlap_on_ties :
  let l := filteredAgenciesData sixTied in
  (3 <= length l)%nat /\ (2 * 3 <= length l)%nat /\
  exists top bottom a,
    App1.filtered l "top3" None (Some "wordCount") = Ok top /\
    App1.filtered l "bottom3" None (Some "wordCount") = Ok bottom /\
    a ∈ top /\ a ∈ bottom.
Proof.
  cbv zeta. split; [cbn; lia|]. split; [cbn; lia|].
  eexists _, _, _. split; [by vm_compute|]. split; [by vm_compute|].
  split; left.
Qed.

(** C6, amended.  When every agency has a non-empty series, no two
    agencies have the same value of the metric in their last record and
    the list has at least 2 * 3 agencies, modes "top3" and "bottom3" of the
    first revision with that metric return agencies none of which is in
    both results. *)
Theorem top3_bottom3_disjoint_distinct_values
    (l : list Agency) (selected selected' : option (list string)) (m : Metric) :
  nonEmptySeries l ->
  distinctValues (lastRecordValue m) l ->
  (2 * 3 <= length l)%nat ->
  exists top bottom,
    App1.filtered l "top3" selected (Some (metric_key m)) = Ok top /\
    App1.filtered l "bottom3" selected' (Some (metric_key m)) = Ok bottom /\
    forall a, a ∈ top -> a ∈ bottom -> False.
Proof.
  intros Hne Hd Hlen.
  eexists _, _. split; [by apply App1_top3_sorted|].
  split; [by apply App1_bottom3_sorted|].
  intros a Htop Hbottom. rewrite sort_asc_rev_desc in Hbottom by done.
  eapply take_rev_disjoint; [| |exact Htop|exact Hbottom].
  - rewrite array_sort_perm. by eapply distinctValues_NoDup.
  - by rewrite array_sort_length.
Qed.

Lemma sixDistinct_distinctValues :
  distinctValues (lastRecordValue WordCount) sixDistinct.
Proof.
  intros i j a b Hi Hj Hv.
  destruct i as [|[|[|[|[|[|i]]]]]]; try discriminate Hi;
    destruct j as [|[|[|[|[|[|j]]]]]]; try discriminate Hj;
    try reflexivity;
    vm_compute in Hi, Hj; injection Hi as <-; injection Hj as <-;
    vm_compute in Hv; discriminate Hv.
Defined.

Lemma top3_bottom3_disjoint_distinct_values_witness :
  nonEmptySeries sixDistinct /\
  distinctValues (lastRecordValue WordCount) sixDistinct /\
  (2 * 3 <= length sixDistinct)%nat /\
  exists top bottom,
    App1.filtered sixDistinct "top3" None (Some (metric_key WordCount)) = Ok top /\
    App1.filtered sixDistinct "bottom3" None (Some (metric_key WordCount)) = Ok bottom /\
    forall a, a ∈ top -> a ∈ bottom -> False.
Proof.
  assert (H1 : nonEmptySeries sixDistinct) by (repeat constructor; discriminate).
  assert (H3 : (2 * 3 <= length sixDistinct)%nat) by (vm_compute; lia).
  split; [exact H1|]. split; [exact sixDistinct_distinctValues|]. split; [exact H3|].
  exact (top3_bottom3_disjoint_distinct_values sixDistinct None None WordCount
           H1 sixDistinct_distinctValues H3).
Defined.

(** ** Modes that do not sort *)

Lemma append_String (c : ascii) (s t : string) :
  (String c s ++ t)%string = String c (s ++ t)%string.
Proof. reflexivity. Qed.

Lemma prefix_spec (sub s : string) :
  String.prefix sub s = true <-> exists post, s = (sub ++ post)%string.
Proof.
  revert s. induction sub as [|c sub IH]; intros s.
  - destruct s; cbn; split; eauto.
  - destruct s as [|c' s]; cbn [String.prefix].
    + split; [discriminate|]. intros [post H]. discriminate H.
    + destruct (Ascii.ascii_dec c c') as [<-|Hne].
      * rewrite IH. split; intros [post H]; exists post;
          rewrite append_String in *; congruence.
      * split; [discriminate|]. intros [post H].
        rewrite append_String in H. congruence.
Qed.

(** [includes] is the substring test. *)
Lemma includes_spec (s sub : string) :
  includes s sub = true <-> exists pre post, s = (pre ++ sub ++ post)%string.
Proof.
  induction s as [|c s IH]; cbn [includes]; rewrite orb_true_iff, prefix_spec.
  - split.
    + intros [[post H]|H]; [|discriminate]. by exists "", post.
    + intros [pre [post H]]. left.
      destruct pre; [by exists post|]. rewrite append_String in H. discriminate.
  - rewrite IH. split.
    + intros [[post H]|[pre [post H]]]; [by exists "", post|].
      exists (String c pre), post. rewrite append_String. by rewrite H.
    + intros [pre [post H]]. destruct pre as [|c' pre]; [left; by exists post|].
      right. exists pre, post. rewrite append_String in H. congruence.
Qed.

Lemma toLowerCase_empty (text : string) : toLowerCase text = "" <-> text = "".
Proof. destruct text; cbn; split; congruence. Qed.

(** Outside modes "top3" and "bottom3" with a metric the two revisions run
    the same code. *)
Lemma App2_filtered_unsorted (l : list Agency) (filterType : string)
    (selected : option (list string)) (metric : option string) :
  (filterType = "top3" \/ filterType = "bottom3" -> truthy metric = false) ->
  App2.filtered l filterType selected metric = App1.filtered l filterType selected metric.
Proof.
  intros H. unfold App2.filtered, App1.filtered.
  destruct (String.eqb_spec filterType "top3") as [->|_].
  { rewrite H by auto. done. }
  destruct (String.eqb_spec filterType "bottom3") as [->|_].
  { rewrite H by auto. done. }
  done.
Qed.

Lemma App1_filtered_all (l : list Agency)
    (selected : option (list string)) (metric : option string) :
  App1.filtered l "all" selected metric = Ok (firstn 3 l).
Proof. unfold App1.filtered. cbn. by rewrite slice_0_3. Qed.

(** C1, evaluated.  The button All Agencies calls [onFilter("all")]; no
    branch of [handleFilter] tests for "all", so the call ends in the final
    [else] and selects the first three agencies.  On four agencies both
    revisions return three of them. *)
Theorem all_mode_selects_first_three :
  let l := filteredAgenciesData fourAgencies in
  length l = 4%nat /\
  App1.filtered l "all" None None = Ok [agencyA; agencyB; agencyC] /\
  App2.filtered l "all" None None = Ok [agencyA; agencyB; agencyC].
Proof. cbv zeta. split; [done|]. split; by vm_compute. Qed.

(** C2, as stated, fails: with an empty search box the guard
    [filterType === "search" && metric] is false and the final [else]
    selects the first three agencies, here the only one. *)
Lemma empty_search_selects_default :
  handleSearch (App1.filtered (filteredAgenciesData [treasury])) "" = Ok [treasury] /\
  handleSearch (App1.filtered (filteredAgenciesData [treasury])) "" <> Ok [].
Proof. split; [by vm_compute|]. vm_compute. discriminate. Qed.

(** C2, amended.  Typing in the search box: an empty text selects the
    default, the first three agencies in their original order; a non-empty
    text selects, in their original order, exactly the agencies whose name
    in lower case contains the text in lower case as a substring.  The text
    "treasury" selects "Department of the Treasury" and not agency A. *)
Theorem search_substring_or_default :
  (forall l : list Agency,
      handleSearch (App1.filtered l) "" = Ok (firstn 3 l)) /\
  (forall (l : list Agency) (text : string),
      text <> "" ->
      exists found,
        handleSearch (App1.filtered l) text = Ok found /\
        found = List.filter
                  (fun a => includes (toLowerCase (agency a)) (toLowerCase text)) l /\
        forall a, a ∈ found <->
                  a ∈ l /\
                  exists pre post,
                    toLowerCase (agency a) = (pre ++ toLowerCase text ++ post)%string) /\
  handleSearch (App1.filtered (filteredAgenciesData [agencyA; treasury])) "treasury"
  = Ok [treasury].
Proof.
  split_and!.
  - intros l. unfold handleSearch, App1.filtered. cbn. by rewrite slice_0_3.
  - intros l text Htext. eexists. split; [|split; [reflexivity|]].
    + unfold handleSearch, App1.filtered. cbn.
      destruct (String.eqb_spec (toLowerCase text) "") as [He|_]; [|done].
      apply (proj1 (toLowerCase_empty text)) in He. contradiction.
    + intros a. rewrite list_elem_of_In, filter_In, <- list_elem_of_In.
      by rewrite includes_spec.
  - by vm_compute.
Qed.

Lemma search_substring_or_default_witness :
  "treasury" <> "" /\
  exists found,
    handleSearch (App1.filtered [agencyA; treasury]) "treasury" = Ok found /\
    found = List.filter
              (fun a => includes (toLowerCase (agency a)) (toLowerCase "treasury"))
              [agencyA; treasury] /\
    forall a, a ∈ found <->
              a ∈ [agencyA; treasury] /\
              exists pre post,
                toLowerCase (agency a) = (pre ++ toLowerCase "treasury" ++ post)%string.
Proof.
  assert (H : "treasury" <> "") by discriminate.
  split; [exact H|].
  exact (proj1 (proj2 search_substring_or_default) [agencyA; treasury] "treasury" H).
Defined.

(** ** Exceptions in the filter, totality of the sort *)

Lemma getSortedAgencies_total (lc : string -> string -> comparison)
    (l : list Agency) (s : gmap string sortState) (metric : string) :
  is_Some (s !! metric) ->
  exists sorted, getSortedAgencies lc l s metric = Ok sorted /\ sorted ≡ₚ l.
Proof.
  intros [st Hst]. unfold getSortedAgencies. rewrite Hst.
  destruct (column st), (direction st); eauto using array_sort_perm.
Qed.

Lemma handleSort_keys (metric : string) (col : sortColumn)
    (s s' : gmap string sortState) (k : string) :
  is_Some (s !! metric) ->
  handleSort metric col s = Ok s' -> is_Some (s' !! k) <-> is_Some (s !! k).
Proof.
  intros [cur Hm]. unfold handleSort. rewrite Hm.
  intros [= <-]. destruct (decide (metric = k)) as [<-|Hne].
  - rewrite lookup_insert_eq, Hm. split; eauto.
  - by rewrite lookup_insert_ne.
Qed.

Lemma metrics_metric_key (k : string) :
  k ∈ metrics <-> exists m, k = metric_key m.
Proof.
  unfold metrics. rewrite !elem_of_cons, elem_of_nil. split.
  - intros [->|[->|[->|[->|[]]]]];
      [by exists WordCount|by exists AvgSentenceLength
      |by exists Restrictiveness|by exists Sentiment].
  - intros [[] ->]; cbn; auto.
Qed.

(** Whatever headers were clicked, every table has a sort state, and the
    sort of every table returns a rearrangement of the dataset. *)
Lemma reachable_keys (init s : gmap string sortState) (m : Metric) :
  init = App1.initialSortStates \/ init = App2.initialSortStates ->
  reachableSortStates init s ->
  is_Some (s !! metric_key m).
Proof.
  intros Hinit Hr. revert m. induction Hr as [|s s' metric col _ IH Hm Hc]; intros m.
  - destruct Hinit as [->| ->], m; vm_compute; eauto.
  - apply metrics_metric_key in Hm as [m' ->].
    by apply (handleSort_keys _ _ _ _ _ (IH m') Hc).
Qed.

Lemma getSortedAgencies_reachable (lc : string -> string -> comparison)
    (l : list Agency) (init s : gmap string sortState) (m : Metric) :
  init = App1.initialSortStates \/ init = App2.initialSortStates ->
  reachableSortStates init s ->
  exists sorted, getSortedAgencies lc l s (metric_key m) = Ok sorted /\ sorted ≡ₚ l.
Proof.
  intros Hinit Hr. apply getSortedAgencies_total. by eapply reachable_keys.
Qed.

Lemma array_sortM_total {A} (cmpM : A -> A -> result (option Q)) (l : list A) :
  (forall x y, x ∈ l -> y ∈ l -> exists v, cmpM x y = Ok v) ->
  exists s, array_sortM cmpM l = Ok s /\ s ≡ₚ l.
Proof.
  intros H.
  exists (array_sort
            (fun x y => match cmpM x y with Ok v => v | TypeError => None end) l).
  split; [|apply array_sort_perm].
  apply array_sortM_pure. intros x y Hx Hy. by destruct (H x y Hx Hy) as [v ->].
Qed.

Lemma lastValue_self_ok (a : Agency) (key : string) :
  data a <> [] -> exists v, lastValue a a key = Ok v.
Proof.
  intros Hne. unfold lastValue. rewrite index_last.
  destruct (last (data a)) as [d|] eqn:Hl; [cbn; eauto|].
  by apply last_None in Hl.
Qed.

(** The first revision's filter returns, in every mode and for every
    metric string, when no series is empty. *)
Lemma App1_filtered_total (l : list Agency) (filterType : string)
    (selected : option (list string)) (metric : option string) :
  nonEmptySeries l ->
  exists found, App1.filtered l filterType selected metric = Ok found.
Proof.
  intros Hne. unfold nonEmptySeries in Hne. rewrite Forall_forall in Hne.
  unfold App1.filtered.
  destruct (String.eqb filterType "top3" && truthy metric)%bool.
  { match goal with |- context [array_sortM ?c l] =>
      destruct (array_sortM_total c l) as (s & -> & _) end; [|cbn; eauto].
    intros x y Hx Hy.
    destruct (lastValue_self_ok x (default "" metric) (Hne x Hx)) as [vx ->].
    destruct (lastValue_self_ok y (default "" metric) (Hne y Hy)) as [vy ->].
    cbn. eauto. }
  destruct (String.eqb filterType "bottom3" && truthy metric)%bool.
  { match goal with |- context [array_sortM ?c l] =>
      destruct (array_sortM_total c l) as (s & -> & _) end; [|cbn; eauto].
    intros x y Hx Hy.
    destruct (lastValue_self_ok x (default "" metric) (Hne x Hx)) as [vx ->].
    destruct (lastValue_self_ok y (default "" metric) (Hne y Hy)) as [vy ->].
    cbn. eauto. }
  repeat match goal with |- context [if ?b then _ else _] => destruct b end; eauto.
Qed.

(** C5, evaluated.  Mode "top3" reads [a.data[a.data.length - 1][metric]]
    without the [?.] and [|| 0] that [getSortedAgencies] uses: an agency
    whose series is empty after the year restriction makes the comparator
    raise, in both revisions and whichever of the two agencies comes
    first. *)
Theorem top3_raises_on_empty_series :
  data <$> filteredAgenciesData [staleAgency; agencyB] = [[]; [record2024 30]] /\
  App1.handleFilter (filteredAgenciesData [staleAgency; agencyB])
    "top3" None (Some "wordCount") initialState = TypeError /\
  App1.handleFilter (filteredAgenciesData [agencyB; staleAgency])
    "top3" None (Some "wordCount") initialState = TypeError /\
  App2.handleFilter (filteredAgenciesData [staleAgency; agencyB])
    "top3" None (Some "wordCount") initialState = TypeError /\
  App2.handleFilter (filteredAgenciesData [agencyB; staleAgency])
    "top3" None (Some "wordCount") initialState = TypeError.
Proof. split_and!; by vm_compute. Qed.

(** ** The two revisions of the filter *)

(** C10, evaluated.  The second revision reads [b.data[a.data.length - 1]]
    where the first reads [b.data[b.data.length - 1]].  For a one-record
    agency [a] and a two-record agency [b] it takes [b]'s first record
    (500) instead of its last (50), and with the roles exchanged it reads
    a record that does not exist and raises.  On these two agencies mode
    "top3" of the first revision returns X, Y; the second returns Y, X or
    raises. *)
Theorem revisions_differ_on_unequal_series :
  lastValue twoYears twoYears "wordCount" = Ok (Num 50) /\
  lastValue twoYears oneYear "wordCount" = Ok (Num 500) /\
  lastValue oneYear oneYear "wordCount" = Ok (Num 100) /\
  lastValue oneYear twoYears "wordCount" = TypeError /\
  App1.filtered (filteredAgenciesData [oneYear; twoYears]) "top3" None (Some "wordCount")
  = Ok [oneYear; twoYears] /\
  App2.filtered (filteredAgenciesData [oneYear; twoYears]) "top3" None (Some "wordCount")
  = Ok [twoYears; oneYear] /\
  App1.filtered (filteredAgenciesData [twoYears; oneYear]) "top3" None (Some "wordCount")
  = Ok [oneYear; twoYears] /\
  App2.filtered (filteredAgenciesData [twoYears; oneYear]) "top3" None (Some "wordCount")
  = TypeError.
Proof. split_and!; by vm_compute. Qed.

(** ** What the table shows after a filter *)

(** C3, as stated, fails: selecting agency A leaves one agency in the
    filter's output, and the table still sorts and pages the three agencies
    of the dataset. *)
Lemma table_ignores_filter_output :
  let l := filteredAgenciesData [agencyA; agencyB; agencyC] in
  exists st' sorted,
    App2.handleFilter l "specific" (Some ["A"]) None initialState = Ok st' /\
    selectedAgencies st' = [agencyA] /\
    getSortedAgencies String.compare l App2.initialSortStates "wordCount" = Ok sorted /\
    App2.paginatedAgencies String.compare l App2.initialSortStates
      (currentPage st') "wordCount" = Ok sorted /\
    length sorted = 3%nat /\
    sorted <> selectedAgencies st'.
Proof.
  cbv zeta. eexists _, _. split; [by vm_compute|].
  split; [done|]. split; [by vm_compute|]. split; [by vm_compute|].
  split; [done|]. discriminate.
Qed.

Lemma pageSlice_first (l : list Agency) : pageSlice l 1 = firstn 5 l.
Proof.
  unfold pageSlice, slice, agenciesPerPage.
  change ((1 - 1) * 5) with 0. change (0 + 5) with 5.
  change (0 <? 0) with false. change (5 <? 0) with false. cbv iota.
  rewrite (Z.min_l 0) by lia. rewrite Z.sub_0_r.
  change (Z.to_nat 0) with 0%nat. rewrite drop_0.
  destruct (Z.min_spec 5 (Z.of_nat (length l))) as [[Hlt ->]|[Hle ->]].
  - done.
  - rewrite Nat2Z.id, firstn_all. symmetry. apply firstn_all2. lia.
Qed.

(** C3, amended.  A filter invocation that returns makes the filter's
    output the selection handed to the chart section and sets the current
    page to 1.  The sequence the table sorts and pages is not that output:
    it is a rearrangement of the whole year-restricted dataset, whatever
    the filter selected, and the table shows its first five entries (in
    the first revision the sequence sorted for wordCount, in the second
    the one sorted for the table's own metric). *)
Theorem filter_feeds_chart_table_reads_dataset
    (lc : string -> string -> comparison) (l : list Agency)
    (filterType : string) (selected : option (list string)) (metric : option string)
    (sortStates : gmap string sortState) (m : Metric) :
  (forall m', is_Some (sortStates !! metric_key m')) ->
  (forall st st',
      App1.handleFilter l filterType selected metric st = Ok st' ->
      App1.filtered l filterType selected metric = Ok (selectedAgencies st') /\
      currentPage st' = 1 /\
      exists sorted,
        getSortedAgencies lc l sortStates "wordCount" = Ok sorted /\
        sorted ≡ₚ l /\
        App1.paginatedAgencies lc l sortStates (currentPage st') (metric_key m)
        = Ok (firstn 5 sorted)) /\
  (forall st st',
      App2.handleFilter l filterType selected metric st = Ok st' ->
      App2.filtered l filterType selected metric = Ok (selectedAgencies st') /\
      currentPage st' = 1 /\
      exists sorted,
        getSortedAgencies lc l sortStates (metric_key m) = Ok sorted /\
        sorted ≡ₚ l /\
        App2.paginatedAgencies lc l sortStates (currentPage st') (metric_key m)
        = Ok (firstn 5 sorted)).
Proof.
  intros Hkeys. split; intros st st' Hf.
  - unfold App1.handleFilter in Hf.
    destruct (App1.filtered l filterType selected metric) as [f|]; [|discriminate].
    cbn in Hf. injection Hf as <-. cbn [selectedAgencies currentPage].
    split; [done|]. split; [done|].
    destruct (getSortedAgencies_total lc l sortStates "wordCount" (Hkeys WordCount))
      as (sorted & Hs & Hp).
    exists sorted. split; [done|]. split; [done|].
    unfold App1.paginatedAgencies. rewrite Hs. cbn. by rewrite pageSlice_first.
  - unfold App2.handleFilter in Hf.
    destruct (App2.filtered l filterType selected metric) as [f|]; [|discriminate].
    cbn in Hf. injection Hf as <-. cbn [selectedAgencies currentPage].
    split; [done|]. split; [done|].
    destruct (getSortedAgencies_total lc l sortStates (metric_key m) (Hkeys m))
      as (sorted & Hs & Hp).
    exists sorted. split; [done|]. split; [done|].
    unfold App2.paginatedAgencies. rewrite Hs. cbn. by rewrite pageSlice_first.
Qed.

Lemma filter_feeds_chart_table_reads_dataset_witness :
  (forall m', is_Some (App2.initialSortStates !! metric_key m')) /\
  App1.handleFilter [agencyA; agencyB; agencyC] "specific" (Some ["A"]) None initialState
  = Ok {| selectedAgencies := [agencyA]; currentPage := 1 |} /\
  App2.handleFilter [agencyA; agencyB; agencyC] "specific" (Some ["A"]) None initialState
  = Ok {| selectedAgencies := [agencyA]; currentPage := 1 |} /\
  (exists sorted,
      getSortedAgencies String.compare [agencyA; agencyB; agencyC]
        App2.initialSortStates "wordCount" = Ok sorted /\
      sorted ≡ₚ [agencyA; agencyB; agencyC] /\
      App1.paginatedAgencies String.compare [agencyA; agencyB; agencyC]
        App2.initialSortStates 1 (metric_key Sentiment) = Ok (firstn 5 sorted)) /\
  (exists sorted,
      getSortedAgencies String.compare [agencyA; agencyB; agencyC]
        App2.initialSortStates (metric_key Sentiment) = Ok sorted /\
      sorted ≡ₚ [agencyA; agencyB; agencyC] /\
      App2.paginatedAgencies String.compare [agencyA; agencyB; agencyC]
        App2.initialSortStates 1 (metric_key Sentiment) = Ok (firstn 5 sorted)).
Proof.
  assert (Hk : forall m', is_Some (App2.initialSortStates !! metric_key m'))
    by (intros []; vm_compute; eauto).
  assert (H1 : App1.handleFilter [agencyA; agencyB; agencyC] "specific" (Some ["A"]) None
                 initialState
               = Ok {| selectedAgencies := [agencyA]; currentPage := 1 |})
    by (vm_compute; reflexivity).
  assert (H2 : App2.handleFilter [agencyA; agencyB; agencyC] "specific" (Some ["A"]) None
                 initialState
               = Ok {| selectedAgencies := [agencyA]; currentPage := 1 |})
    by (vm_compute; reflexivity).
  split; [exact Hk|]. split; [exact H1|]. split; [exact H2|].
  destruct (filter_feeds_chart_table_reads_dataset String.compare
              [agencyA; agencyB; agencyC] "specific" (Some ["A"]) None
              App2.initialSortStates Sentiment Hk) as [T1 T2].
  split.
  - exact (proj2 (proj2 (T1 _ _ H1))).
  - exact (proj2 (proj2 (T2 _ _ H2))).
Defined.

(** ** Pagination *)

Lemma totalPages_ceiling (l : list Agency) :
  5 * (totalPages l - 1) < Z.of_nat (length l) <= 5 * totalPages l.
Proof.
  unfold totalPages, agenciesPerPage, Qceiling, Qfloor.
  generalize (Z.of_nat (length l)). intros n.
  cbn. Z.div_mod_to_equations. lia.
Qed.

(** C7, as stated, fails: [Math.ceil(0 / 5)] is 0, no minimum of 1 is
    applied, and on an empty dataset Next takes page 1 to page 0. *)
Lemma empty_dataset_has_no_page :
  totalPages (filteredAgenciesData []) = 0 /\
  ~ 1 <= totalPages (filteredAgenciesData []) /\
  currentPage (onNext (filteredAgenciesData []) initialState) = 0.
Proof. split; [by vm_compute|]. split; [by vm_compute|by vm_compute]. Qed.

(** C7, amended.  With the page size 5 of the code, [totalPages] is
    ceil(count / 5): the least integer whose fivefold reaches the count
    (so 0 for an empty dataset).  For a non-empty dataset a current page
    in [1, totalPages] stays there under Previous, Next and any filter
    invocation that returns; Previous on page 1 and Next on the last page
    change nothing.  With 12 agencies [totalPages] is 3, and Next from
    page 4, which asks for page 5, gives page 3. *)
Theorem pagination_ceiling_and_clamp :
  (forall l : list Agency,
      5 * (totalPages l - 1) < Z.of_nat (length l) <= 5 * totalPages l) /\
  (forall (l : list Agency) (st : AppState),
      l <> [] ->
      1 <= currentPage st <= totalPages l ->
      1 <= currentPage (onPrevious st) <= totalPages l /\
      1 <= currentPage (onNext l st) <= totalPages l /\
      (currentPage st = 1 -> onPrevious st = st) /\
      (currentPage st = totalPages l -> onNext l st = st)) /\
  (forall (l : list Agency) filterType selected metric (st st' : AppState),
      l <> [] ->
      App1.handleFilter l filterType selected metric st = Ok st' \/
      App2.handleFilter l filterType selected metric st = Ok st' ->
      1 <= currentPage st' <= totalPages l) /\
  (forall (l : list Agency) (st : AppState),
      length l = 12%nat ->
      totalPages l = 3 /\
      (currentPage st + 1 = 5 -> currentPage (onNext l st) = 3)).
Proof.
  assert (Hpos : forall l : list Agency, l <> [] -> 1 <= totalPages l).
  { intros l Hl. pose proof (totalPages_ceiling l) as Hc.
    destruct l; [done|]. cbn [length] in Hc. lia. }
  split_and!.
  - apply totalPages_ceiling.
  - intros l [sel page] Hl Hpage. cbn in *. specialize (Hpos l Hl).
    split_and!; try lia.
    + intros ->. unfold onPrevious. done.
    + intros ->. unfold onNext. cbn. f_equal. lia.
  - intros l filterType selected metric st st' Hl Hf. specialize (Hpos l Hl).
    unfold App1.handleFilter, App2.handleFilter in Hf.
    destruct Hf as [Hf|Hf].
    + destruct (App1.filtered _ _ _ _); [|discriminate].
      cbn in Hf. injection Hf as <-. cbn. lia.
    + destruct (App2.filtered _ _ _ _); [|discriminate].
      cbn in Hf. injection Hf as <-. cbn. lia.
  - intros l st Hlen. pose proof (totalPages_ceiling l) as Hc. rewrite Hlen in Hc.
    assert (Ht : totalPages l = 3) by lia.
    split; [done|]. intros H5. cbn. rewrite Ht. lia.
Qed.

Lemma pagination_ceiling_and_clamp_witness :
  filteredAgenciesData twelveAgencies <> [] /\
  length (filteredAgenciesData twelveAgencies) = 12%nat /\
  totalPages (filteredAgenciesData twelveAgencies) = 3 /\
  (let st := {| selectedAgencies := []; currentPage := 3 |} in
   1 <= currentPage (onPrevious st) <= totalPages (filteredAgenciesData twelveAgencies) /\
   1 <= currentPage (onNext (filteredAgenciesData twelveAgencies) st)
     <= totalPages (filteredAgenciesData twelveAgencies) /\
   onNext (filteredAgenciesData twelveAgencies) st = st) /\
  currentPage (onNext (filteredAgenciesData twelveAgencies)
                 {| selectedAgencies := []; currentPage := 4 |}) = 3.
Proof.
  set (l := filteredAgenciesData twelveAgencies).
  set (st := {| selectedAgencies := []; currentPage := 3 |}).
  assert (Hl : l <> []) by (vm_compute; discriminate).
  assert (Hlen : length l = 12%nat) by (vm_compute; reflexivity).
  assert (Hpage : 1 <= currentPage st <= totalPages l) by (vm_compute; split; discriminate).
  assert (Hlast : currentPage st = totalPages l) by (vm_compute; reflexivity).
  destruct pagination_ceiling_and_clamp as (_ & Hclamp & _ & Hscenario).
  destruct (Hclamp l st Hl Hpage) as (Hprev & Hnext & _ & Hnoop).
  destruct (Hscenario l {| selectedAgencies := []; currentPage := 4 |} Hlen) as (Ht & H5).
  split; [exact Hl|]. split; [exact Hlen|]. split; [exact Ht|].
  split; [exact (conj Hprev (conj Hnext (Hnoop Hlast)))|].
  apply H5. reflexivity.
Defined.

(** ** Sort state per metric *)

(** In the second revision a click on a header of one table leaves the
    sort state, the sorted sequence and the rows of every other table as
    they were. *)
Lemma App2_sort_is_per_metric (lc : string -> string -> comparison)
    (l : list Agency) (metric : string) (col : sortColumn)
    (s s' : gmap string sortState) (other : string) (page : Z) :
  handleSort metric col s = Ok s' ->
  other <> metric ->
  s' !! other = s !! other /\
  getSortedAgencies lc l s' other = getSortedAgencies lc l s other /\
  App2.paginatedAgencies lc l s' page other = App2.paginatedAgencies lc l s page other.
Proof.
  intros Hs Hne.
  assert (Hl : forall x : sortState, <[metric:=x]> s !! other = s !! other)
    by (intros x; by rewrite lookup_insert_ne).
  assert (Hs' : exists x : sortState, s' = <[metric:=x]> s).
  { unfold handleSort in Hs. destruct (s !! metric) as [cur|].
    - injection Hs as <-. eauto.
    - destruct (bool_decide (metric ∈ objectPrototypeNames)); [|discriminate].
      injection Hs as <-. eauto. }
  destruct Hs' as [x0 ->].
  split; [apply Hl|].
  assert (Hg : forall x : sortState,
             getSortedAgencies lc l (<[metric:=x]> s) other = getSortedAgencies lc l s other)
    by (intros x; unfold getSortedAgencies; by rewrite Hl).
  split; [apply Hg|]. unfold App2.paginatedAgencies. by rewrite Hg.
Qed.

(** C8, evaluated.  The first revision computes [paginatedAgencies] once,
    from [getSortedAgencies("wordCount")], and renders it in all four
    tables: a click on the 2024 header of the wordCount table leaves the
    sort state of sentiment as it was and still reorders the rows of the
    sentiment table from A, B, C to A, C, B. *)
Theorem App1_tables_follow_wordCount_sort :
  let l := filteredAgenciesData [agencyA; agencyB; agencyC] in
  exists s1,
    handleSort "wordCount" (ColYear 2024) App1.initialSortStates = Ok s1 /\
    s1 !! "sentiment" = App1.initialSortStates !! "sentiment" /\
    App1.paginatedAgencies String.compare l App1.initialSortStates 1 "sentiment"
    = Ok [agencyA; agencyB; agencyC] /\
    App1.paginatedAgencies String.compare l s1 1 "sentiment"
    = Ok [agencyA; agencyC; agencyB].
Proof.
  cbv zeta. eexists. split; [by vm_compute|]. split_and!; by vm_compute.
Qed.

(** ** Clicking the same column again *)

Lemma handleSort_lookup (metric : string) (col : sortColumn)
    (s : gmap string sortState) (cur : sortState) :
  s !! metric = Some cur ->
  handleSort metric col s
  = Ok (<[metric :=
            {| column := Some col;
               direction :=
                 Some (if (bool_decide (column cur = Some col) &&
                           bool_decide (direction cur = Some asc))%bool
                       then desc else asc) |}]> s).
Proof. intros H. unfold handleSort. by rewrite H. Qed.

(** C9.  Three clicks in a row on the same header of the table of a metric
    that has a sort state: each click returns, the second reverses the
    direction the first one set, the third restores the sort state of the
    first, and the sequence sorted after the third click is the one sorted
    after the first.  Unless the column was already sorted ascending
    before the first click, the directions are ascending, descending,
    ascending. *)
Theorem same_column_clicks_round_trip
    (lc : string -> string -> comparison) (l : list Agency)
    (metric : string) (col : sortColumn)
    (s0 : gmap string sortState) (st0 : sortState) :
  s0 !! metric = Some st0 ->
  exists s1 s2 s3 d1 sorted,
    handleSort metric col s0 = Ok s1 /\
    handleSort metric col s1 = Ok s2 /\
    handleSort metric col s2 = Ok s3 /\
    s1 !! metric = Some {| column := Some col; direction := Some d1 |} /\
    s2 !! metric = Some {| column := Some col; direction := Some (toggle d1) |} /\
    s3 !! metric = Some {| column := Some col; direction := Some d1 |} /\
    s3 = s1 /\
    (~ (column st0 = Some col /\ direction st0 = Some asc) -> d1 = asc) /\
    getSortedAgencies lc l s1 metric = Ok sorted /\
    getSortedAgencies lc l s3 metric = Ok sorted /\
    sorted = array_sort (sortComparator lc metric col d1) l.
Proof.
  intros H0.
  set (d1 := if (bool_decide (column st0 = Some col) &&
                 bool_decide (direction st0 = Some asc))%bool
             then desc else asc).
  set (s1 := <[metric := {| column := Some col; direction := Some d1 |}]> s0).
  set (s2 := <[metric := {| column := Some col; direction := Some (toggle d1) |}]> s1).
  assert (H1 : s1 !! metric = Some {| column := Some col; direction := Some d1 |})
    by apply lookup_insert_eq.
  assert (H2 : s2 !! metric = Some {| column := Some col; direction := Some (toggle d1) |})
    by apply lookup_insert_eq.
  assert (E1 : handleSort metric col s0 = Ok s1) by by rewrite (handleSort_lookup _ _ _ _ H0).
  assert (E2 : handleSort metric col s1 = Ok s2).
  { rewrite (handleSort_lookup _ _ _ _ H1). cbn [column direction].
    rewrite bool_decide_eq_true_2 by done. by destruct d1. }
  assert (E3 : handleSort metric col s2 = Ok s1).
  { rewrite (handleSort_lookup _ _ _ _ H2). cbn [column direction].
    rewrite bool_decide_eq_true_2 by done. unfold s2, s1.
    rewrite !insert_insert_eq. by destruct d1. }
  assert (G : getSortedAgencies lc l s1 metric
              = Ok (array_sort (sortComparator lc metric col d1) l)).
  { unfold getSortedAgencies. by rewrite H1. }
  exists s1, s2, s1, d1, (array_sort (sortComparator lc metric col d1) l).
  split_and!; try done.
  intros Hn. unfold d1.
  destruct (bool_decide (column st0 = Some col)) eqn:Bc; [|done].
  destruct (bool_decide (direction st0 = Some asc)) eqn:Bd; [|done].
  apply bool_decide_eq_true_1 in Bc, Bd. by destruct Hn.
Qed.

Lemma same_column_clicks_round_trip_witness :
  App1.initialSortStates !! "wordCount" = Some {| column := None; direction := None |} /\
  exists s1 s2 s3 d1 sorted,
    handleSort "wordCount" (ColYear 2024) App1.initialSortStates = Ok s1 /\
    handleSort "wordCount" (ColYear 2024) s1 = Ok s2 /\
    handleSort "wordCount" (ColYear 2024) s2 = Ok s3 /\
    s1 !! "wordCount" = Some {| column := Some (ColYear 2024); direction := Some d1 |} /\
    s2 !! "wordCount"
    = Some {| column := Some (ColYear 2024); direction := Some (toggle d1) |} /\
    s3 !! "wordCount" = Some {| column := Some (ColYear 2024); direction := Some d1 |} /\
    s3 = s1 /\
    (~ (column {| column := None; direction := None |} = Some (ColYear 2024) /\
        direction {| column := None; direction := None |} = Some asc) -> d1 = asc) /\
    getSortedAgencies String.compare [agencyA; agencyB; agencyC] s1 "wordCount"
    = Ok sorted /\
    getSortedAgencies String.compare [agencyA; agencyB; agencyC] s3 "wordCount"
    = Ok sorted /\
    sorted = array_sort (sortComparator String.compare "wordCount" (ColYear 2024) d1)
               [agencyA; agencyB; agencyC].
Proof.
  assert (H : App1.initialSortStates !! "wordCount"
              = Some {| column := None; direction := None |})
    by (vm_compute; reflexivity).
  split; [exact H|].
  exact (same_column_clicks_round_trip String.compare [agencyA; agencyB; agencyC]
           "wordCount" (ColYear 2024) App1.initialSortStates _ H).
Defined.

(** * Further properties of the source *)

(** ** Helper facts *)

Lemma filter_sublist {A} (f : A -> bool) (l : list A) :
  List.filter f l `sublist_of` l.
Proof.
  induction l as [|x l IH]; cbn; [constructor|].
  destruct (f x); by constructor.
Qed.

Lemma filter_elem_of {A} (f : A -> bool) (l : list A) (x : A) :
  x ∈ List.filter f l <-> x ∈ l /\ f x = true.
Proof. by rewrite !list_elem_of_In, filter_In. Qed.

Lemma insert_sortedM_perm {A} (cmpM : A -> A -> result (option Q))
    (x : A) (l s : list A) :
  insert_sortedM cmpM x l = Ok s -> s ≡ₚ x :: l.
Proof.
  revert s. induction l as [|y l IH]; intros s; cbn [insert_sortedM].
  { by intros [= <-]. }
  destruct (cmpM x y) as [v|]; [|discriminate]. cbn.
  destruct (sort_order v); try by intros [= <-].
  destruct (insert_sortedM cmpM x l) as [r|]; [|discriminate].
  cbn. intros [= <-]. rewrite (IH r eq_refl). apply Permutation_swap.
Qed.

Lemma array_sortM_perm {A} (cmpM : A -> A -> result (option Q)) (l s : list A) :
  array_sortM cmpM l = Ok s -> s ≡ₚ l.
Proof.
  revert s. induction l as [|x l IH]; intros s; cbn [array_sortM].
  { by intros [= <-]. }
  destruct (array_sortM cmpM l) as [r|]; [|discriminate]. cbn.
  intros H%insert_sortedM_perm. by rewrite H, (IH r eq_refl).
Qed.

Lemma insert_sortedM_ext {A} (c1 c2 : A -> A -> result (option Q))
    (x : A) (l : list A) :
  (forall y, y ∈ l -> c1 x y = c2 x y) ->
  insert_sortedM c1 x l = insert_sortedM c2 x l.
Proof.
  induction l as [|y l IH]; intros H; [done|].
  cbn [insert_sortedM]. rewrite H by left.
  destruct (c2 x y) as [v|]; [|done]. cbn.
  destruct (sort_order v); try done.
  rewrite IH; [done|]. intros z Hz. apply H. by right.
Qed.

Lemma array_sortM_ext {A} (c1 c2 : A -> A -> result (option Q)) (l : list A) :
  (forall x y, x ∈ l -> y ∈ l -> c1 x y = c2 x y) ->
  array_sortM c1 l = array_sortM c2 l.
Proof.
  induction l as [|x l IH]; intros H; [done|].
  cbn [array_sortM]. rewrite IH by (intros y z Hy Hz; apply H; by right).
  destruct (array_sortM c2 l) as [s|] eqn:Hs; [|done]. cbn.
  apply insert_sortedM_ext. intros y Hy. apply H; [by left|].
  right. by rewrite <- (array_sortM_perm _ _ _ Hs).
Qed.

(** A sort leaves an array that is already in order as it is. *)
Lemma array_sort_sorted_id {A} (cmp : A -> A -> option Q) (l : list A) :
  StronglySorted (precedes cmp) l -> array_sort cmp l = l.
Proof.
  induction 1 as [|x l Hl IH Hx]; [done|].
  cbn [array_sort]. rewrite IH. destruct l as [|y l']; [done|].
  cbn [insert_sorted]. inversion Hx as [|? ? Hxy _]; subst.
  unfold precedes in Hxy. by destruct (sort_order (cmp x y)).
Qed.

(** ** The year restriction *)

(** X1.  [filteredAgenciesData] keeps every agency, with its name, in the
    order of the document; the series it leaves to an agency are the
    records of 2024 and 2025 of the original series, in their original
    order; applying the restriction again changes nothing. *)
Theorem year_restriction_keeps_agencies (agenciesData : list Agency) :
  map agency (filteredAgenciesData agenciesData) = map agency agenciesData /\
  Forall2
    (fun a' a =>
       data a' `sublist_of` data a /\
       forall d, d ∈ data a' <-> d ∈ data a /\ (year d = 2024 \/ year d = 2025))
    (filteredAgenciesData agenciesData) agenciesData /\
  filteredAgenciesData (filteredAgenciesData agenciesData)
  = filteredAgenciesData agenciesData.
Proof.
  assert (Hy : forall d : AgencyData,
             existsb (Z.eqb (year d)) [2024; 2025] = true
             <-> year d = 2024 \/ year d = 2025).
  { intros d. cbn. rewrite !orb_true_iff, !Z.eqb_eq. intuition discriminate. }
  unfold filteredAgenciesData. split_and!.
  - rewrite map_map. done.
  - induction agenciesData as [|a l IH]; cbn [map]; constructor; [|done].
    cbn [data]. split; [apply filter_sublist|].
    intros d. by rewrite filter_elem_of, Hy.
  - rewrite map_map. apply map_ext. intros a. cbn [agency data]. f_equal.
    induction (data a) as [|d ds IH]; [done|]. cbn [List.filter].
    destruct (existsb (Z.eqb (year d)) [2024; 2025]) eqn:E; cbn [List.filter].
    + by rewrite E, IH.
    + done.
Qed.

(** ** Explicit selection and the default *)

Lemma App1_filtered_specific (l : list Agency) (names : list string)
    (metric : option string) :
  App1.filtered l "specific" (Some names) metric
  = Ok (List.filter (fun a => array_includes names (agency a)) l).
Proof. done. Qed.

Lemma array_includes_spec (names : list string) (name : string) :
  array_includes names name = true <-> name ∈ names.
Proof.
  unfold array_includes. rewrite existsb_exists. split.
  - intros (n & Hn & ->%String.eqb_eq). by apply list_elem_of_In.
  - intros H. exists name. split; [by apply list_elem_of_In|apply String.eqb_refl].
Qed.

(** X2.  Mode "specific" returns, in both revisions, the agencies of the
    dataset whose name is among the given names, in dataset order; names
    of no agency are ignored; the result depends on which names are given,
    not on their order or repetition.  Names A and Z on agencies A, B, C
    select A alone. *)
Theorem specific_selects_named_agencies :
  (forall (l : list Agency) (names : list string) (metric : option string),
      exists found,
        App1.filtered l "specific" (Some names) metric = Ok found /\
        App2.filtered l "specific" (Some names) metric = Ok found /\
        found `sublist_of` l /\
        forall a, a ∈ found <-> a ∈ l /\ agency a ∈ names) /\
  (forall (l : list Agency) (names names' : list string) (metric : option string),
      (forall n, n ∈ names <-> n ∈ names') ->
      App1.filtered l "specific" (Some names) metric
      = App1.filtered l "specific" (Some names') metric) /\
  App1.filtered (filteredAgenciesData [agencyA; agencyB; agencyC])
    "specific" (Some ["A"; "Z"]) None
  = Ok [agencyA].
Proof.
  split_and!.
  - intros l names metric. eexists. split; [apply App1_filtered_specific|].
    split; [|split].
    + rewrite App2_filtered_unsorted by (intros [H|H]; discriminate H).
      apply App1_filtered_specific.
    + apply filter_sublist.
    + intros a. by rewrite filter_elem_of, array_includes_spec.
  - intros l names names' metric H. rewrite !App1_filtered_specific. f_equal.
    apply filter_ext. intros a.
    destruct (array_includes names (agency a)) eqn:E1,
             (array_includes names' (agency a)) eqn:E2; try done.
    + apply array_includes_spec, H, array_includes_spec in E1. congruence.
    + apply array_includes_spec, H, array_includes_spec in E2. congruence.
  - by vm_compute.
Qed.

Lemma specific_selects_named_agencies_witness :
  (forall n, n ∈ ["A"; "C"] <-> n ∈ ["C"; "A"; "C"]) /\
  App1.filtered [agencyA; agencyB; agencyC] "specific" (Some ["A"; "C"]) None
  = App1.filtered [agencyA; agencyB; agencyC] "specific" (Some ["C"; "A"; "C"]) None.
Proof.
  assert (H : forall n, n ∈ ["A"; "C"] <-> n ∈ ["C"; "A"; "C"]).
  { intros n. rewrite !elem_of_cons. rewrite !elem_of_nil. intuition. }
  split; [exact H|].
  exact (proj1 (proj2 specific_selects_named_agencies)
           [agencyA; agencyB; agencyC] ["A"; "C"] ["C"; "A"; "C"] None H).
Defined.

(** X3.  The multi-select of [FilterBar] offers one option per agency of
    the dataset, in dataset order.  Choosing all of them selects the whole
    dataset, in both revisions, and choosing none selects no agency. *)
Theorem multi_select_all_and_none (l : list Agency) :
  map value (agencyOptions l) = map agency l /\
  handleAgencyChange (App1.filtered l) (agencyOptions l) = Ok l /\
  handleAgencyChange (App2.filtered l) (agencyOptions l) = Ok l /\
  handleAgencyChange (App1.filtered l) [] = Ok [] /\
  handleAgencyChange (App2.filtered l) [] = Ok [].
Proof.
  assert (Hv : map value (agencyOptions l) = map agency l).
  { unfold agencyOptions. rewrite map_map. done. }
  assert (H1 : handleAgencyChange (App1.filtered l) (agencyOptions l) = Ok l).
  { unfold handleAgencyChange. rewrite App1_filtered_specific, Hv. f_equal.
    apply forallb_filter_id, forallb_forall. intros a Ha.
    apply array_includes_spec, list_elem_of_In, in_map. done. }
  assert (H0 : handleAgencyChange (App1.filtered l) [] = Ok []).
  { unfold handleAgencyChange. cbn [map]. rewrite App1_filtered_specific. f_equal.
    clear. induction l as [|a l IH]; [done|]. cbn. exact IH. }
  unfold handleAgencyChange in *.
  rewrite !App2_filtered_unsorted by (intros [H|H]; discriminate H).
  done.
Qed.

(** X4.  Whatever the dataset, a mode that is none of "top3", "bottom3",
    "specific" and "search", and any mode called without names and without
    a non-empty metric or query, ends in the default branch: both
    revisions select the first three agencies in dataset order (all of
    them when there are fewer than three), and the page is reset to 1. *)
Theorem unknown_mode_selects_first_three (l : list Agency) (filterType : string)
    (selected : option (list string)) (metric : option string) (st : AppState) :
  (filterType ∉ ["top3"; "bottom3"; "specific"; "search"]) \/
  (selected = None /\ truthy metric = false) ->
  App1.handleFilter l filterType selected metric st
  = Ok {| selectedAgencies := firstn 3 l; currentPage := 1 |} /\
  App2.handleFilter l filterType selected metric st
  = Ok {| selectedAgencies := firstn 3 l; currentPage := 1 |} /\
  length (firstn 3 l) = Nat.min 3 (length l).
Proof.
  intros H.
  assert (H1 : App1.filtered l filterType selected metric = Ok (firstn 3 l)).
  { unfold App1.filtered. destruct H as [H|[-> Hm]].
    - rewrite !not_elem_of_cons in H. destruct H as (H1 & H2 & H3 & H4 & _).
      apply String.eqb_neq in H1, H2, H3, H4. rewrite H1, H2, H3, H4. cbn.
      by rewrite slice_0_3.
    - rewrite Hm, !andb_false_r. cbn. by rewrite slice_0_3. }
  assert (H2 : App2.filtered l filterType selected metric = Ok (firstn 3 l)).
  { rewrite App2_filtered_unsorted; [done|]. intros Hf.
    destruct H as [H|[_ Hm]]; [|done].
    rewrite !not_elem_of_cons in H. destruct H as (Ha & Hb & _).
    destruct Hf; contradiction. }
  unfold App1.handleFilter, App2.handleFilter. rewrite H1, H2.
  split_and!; try done. apply length_take.
Qed.

Lemma unknown_mode_selects_first_three_witness :
  ("worst3" ∉ ["top3"; "bottom3"; "specific"; "search"]) /\
  App1.handleFilter fourAgencies "worst3" None (Some "sentiment") initialState
  = Ok {| selectedAgencies := firstn 3 fourAgencies; currentPage := 1 |} /\
  App2.handleFilter fourAgencies "worst3" None (Some "sentiment") initialState
  = Ok {| selectedAgencies := firstn 3 fourAgencies; currentPage := 1 |} /\
  length (firstn 3 fourAgencies) = Nat.min 3 (length fourAgencies).
Proof.
  assert (H : "worst3" ∉ ["top3"; "bottom3"; "specific"; "search"]).
  { rewrite !not_elem_of_cons. split_and!; try discriminate. apply not_elem_of_nil. }
  split; [exact H|].
  exact (unknown_mode_selects_first_three fourAgencies "worst3" None
           (Some "sentiment") initialState (or_introl H)).
Defined.

(** ** Bottom-N, and what every mode returns *)

(** X5.  On a list whose agencies all have a non-empty series, mode
    "bottom3" of the first revision returns the first three entries of a
    rearrangement of the input that is in ascending order of the metric in
    the last record and keeps agencies with equal values in their input
    order: none of the agencies left out has a smaller value than one that
    is returned. *)
Theorem bottom3_smallest_values_stable
    (l : list Agency) (selected : option (list string)) (m : Metric) :
  nonEmptySeries l ->
  exists sorted : list Agency,
    App1.filtered l "bottom3" selected (Some (metric_key m)) = Ok (firstn 3 sorted) /\
    sorted ≡ₚ l /\
    StronglySorted (fun a b => lastRecordValue m a <= lastRecordValue m b)%Q sorted /\
    (forall q : Q,
        List.filter (fun a => Qeq_bool (lastRecordValue m a) q) sorted
        = List.filter (fun a => Qeq_bool (lastRecordValue m a) q) l) /\
    length (firstn 3 sorted) = Nat.min 3 (length l) /\
    (forall a b, a ∈ firstn 3 sorted -> b ∈ skipn 3 sorted ->
                 lastRecordValue m a <= lastRecordValue m b)%Q.
Proof.
  intros Hne.
  set (sorted := array_sort (byValueAsc (lastRecordValue m)) l).
  assert (Hs : StronglySorted
                 (fun a b => lastRecordValue m a <= lastRecordValue m b)%Q sorted)
    by apply sorted_asc.
  exists sorted. split_and!.
  - by apply App1_bottom3_sorted.
  - apply array_sort_perm.
  - done.
  - intros q. apply stable_asc.
  - rewrite length_take. unfold sorted. by rewrite array_sort_length.
  - intros a b Ha Hb. rewrite <- (take_drop 3 sorted) in Hs.
    apply StronglySorted_app in Hs as (Hs & _ & _). by apply Hs.
Qed.

Lemma bottom3_smallest_values_stable_witness :
  nonEmptySeries sixDistinct /\
  exists sorted : list Agency,
    App1.filtered sixDistinct "bottom3" None (Some (metric_key WordCount))
    = Ok (firstn 3 sorted) /\
    sorted ≡ₚ sixDistinct /\
    StronglySorted
      (fun a b => lastRecordValue WordCount a <= lastRecordValue WordCount b)%Q sorted /\
    (forall q : Q,
        List.filter (fun a => Qeq_bool (lastRecordValue WordCount a) q) sorted
        = List.filter (fun a => Qeq_bool (lastRecordValue WordCount a) q) sixDistinct) /\
    length (firstn 3 sorted) = Nat.min 3 (length sixDistinct) /\
    (forall a b, a ∈ firstn 3 sorted -> b ∈ skipn 3 sorted ->
                 lastRecordValue WordCount a <= lastRecordValue WordCount b)%Q.
Proof.
  assert (H : nonEmptySeries sixDistinct) by (repeat constructor; discriminate).
  split; [exact H|].
  exact (bottom3_smallest_values_stable sixDistinct None WordCount H).
Defined.

(** X6.  Whenever a filter invocation returns, in either revision and in
    any mode, what it selects is drawn from the dataset: every selected
    agency is an agency of the dataset, none is selected more often than
    it occurs there, and so the selection is never longer than the
    dataset. *)
Theorem filter_selects_from_dataset (l : list Agency) (filterType : string)
    (selected : option (list string)) (metric : option string) (found : list Agency) :
  App1.filtered l filterType selected metric = Ok found \/
  App2.filtered l filterType selected metric = Ok found ->
  found ⊆+ l /\
  (forall a, a ∈ found -> a ∈ l) /\
  (length found <= length l)%nat.
Proof.
  intros H.
  assert (Hsub : found ⊆+ l).
  { assert (Hsort : forall c, (s ← array_sortM c l; Ok (slice s 0 3)) = Ok found ->
                              found ⊆+ l).
    { intros c Hc. destruct (array_sortM c l) as [s|] eqn:Hs; [|discriminate].
      cbn in Hc. injection Hc as <-. rewrite slice_0_3.
      rewrite <- (array_sortM_perm _ _ _ Hs). apply sublist_submseteq, sublist_take. }
    assert (Hrest : forall r : result (list Agency),
               r = Ok found ->
               r = Ok (List.filter
                         (fun a => array_includes (default [] selected) (agency a)) l) \/
               r = Ok (List.filter
                         (fun a => includes (toLowerCase (agency a)) (default "" metric)) l) \/
               r = Ok (slice l 0 3) ->
               found ⊆+ l).
    { intros r Hr [E|[E|E]]; rewrite E in Hr; injection Hr as <-;
        apply sublist_submseteq;
        [apply filter_sublist|apply filter_sublist|rewrite slice_0_3; apply sublist_take]. }
    destruct H as [H|H]; [unfold App1.filtered in H|unfold App2.filtered in H];
      repeat match type of H with
             | (if ?b then _ else _) = _ => destruct b
             end;
      first [by eapply Hsort | eapply Hrest; [exact H|]; auto]. }
  split; [done|]. split.
  - intros a Ha. by eapply elem_of_submseteq.
  - by apply submseteq_length.
Qed.

Lemma filter_selects_from_dataset_witness :
  App2.filtered fourAgencies "top3" None (Some "wordCount")
  = Ok [agencyD; agencyB; agencyC] /\
  [agencyD; agencyB; agencyC] ⊆+ fourAgencies /\
  (forall a, a ∈ [agencyD; agencyB; agencyC] -> a ∈ fourAgencies) /\
  (length [agencyD; agencyB; agencyC] <= length fourAgencies)%nat.
Proof.
  assert (H : App2.filtered fourAgencies "top3" None (Some "wordCount")
              = Ok [agencyD; agencyB; agencyC]) by (vm_compute; reflexivity).
  split; [exact H|].
  exact (filter_selects_from_dataset fourAgencies "top3" None (Some "wordCount")
           [agencyD; agencyB; agencyC] (or_intror H)).
Defined.

(** ** The mount effect and the two revisions *)

(** X7.  For every dataset the effect run on mount selects what the button
    Top 3 by Word Count selects in the first revision, and raises when that
    raises; unlike the button it leaves the current page as it is. *)
Theorem mount_selects_top3_by_word_count (l : list Agency) (st : AppState) :
  mountEffect l st
  = (found ← App1.filtered l "top3" None (Some "wordCount");
     Ok {| selectedAgencies := found; currentPage := currentPage st |}).
Proof.
  unfold mountEffect, App1.filtered.
  cbn [String.eqb Ascii.eqb Bool.eqb truthy negb andb default from_option id].
  rewrite (array_sortM_ext
             (fun a b =>
                bValue ← lastValue b b "wordCount";
                aValue ← lastValue a a "wordCount";
                Ok (js_sub bValue aValue))
             (fun a b =>
                aValue ← lastValue a a "wordCount";
                bValue ← lastValue b b "wordCount";
                Ok (js_sub bValue aValue))).
  - by destruct (array_sortM _ l).
  - intros a b _ _.
    by destruct (lastValue a a "wordCount"), (lastValue b b "wordCount").
Qed.

(** Between two series of the same length the read of the second revision
    is the read of the first. *)
Lemma lastValue_same_length (a b : Agency) (key : string) :
  length (data a) = length (data b) -> lastValue b a key = lastValue b b key.
Proof. intros H. unfold lastValue. by rewrite H. Qed.

(** X8.  On a dataset whose series all have the same number of records
    the two revisions of the filter return the same result, in every mode
    and whether they return or raise. *)
Theorem revisions_agree_on_equal_series (l : list Agency) (filterType : string)
    (selected : option (list string)) (metric : option string) :
  (forall a b, a ∈ l -> b ∈ l -> length (data a) = length (data b)) ->
  App2.filtered l filterType selected metric
  = App1.filtered l filterType selected metric.
Proof.
  intros Hlen. unfold App2.filtered, App1.filtered.
  destruct (String.eqb filterType "top3" && truthy metric)%bool.
  { rewrite (array_sortM_ext _
               (fun a b =>
                  aValue ← lastValue a a (default "" metric);
                  bValue ← lastValue b b (default "" metric);
                  Ok (js_sub bValue aValue))); [done|].
    intros a b Ha Hb. by rewrite (lastValue_same_length a b) by auto. }
  destruct (String.eqb filterType "bottom3" && truthy metric)%bool.
  { rewrite (array_sortM_ext _
               (fun a b =>
                  aValue ← lastValue a a (default "" metric);
                  bValue ← lastValue b b (default "" metric);
                  Ok (js_sub aValue bValue))); [done|].
    intros a b Ha Hb. by rewrite (lastValue_same_length a b) by auto. }
  done.
Qed.

Lemma revisions_agree_on_equal_series_witness :
  (forall a b, a ∈ sixDistinct -> b ∈ sixDistinct ->
               length (data a) = length (data b)) /\
  App2.filtered sixDistinct "bottom3" None (Some "wordCount")
  = App1.filtered sixDistinct "bottom3" None (Some "wordCount").
Proof.
  assert (H : forall a b, a ∈ sixDistinct -> b ∈ sixDistinct ->
                          length (data a) = length (data b)).
  { assert (H1 : forall a, a ∈ sixDistinct -> length (data a) = 1%nat).
    { intros a Ha. unfold sixDistinct in Ha. cbn [map] in Ha.
      rewrite !elem_of_cons, elem_of_nil in Ha.
      destruct Ha as [->|[->|[->|[->|[->|[->|[]]]]]]]; reflexivity. }
    intros a b Ha Hb. by rewrite (H1 a Ha), (H1 b Hb). }
  split; [exact H|].
  exact (revisions_agree_on_equal_series sixDistinct "bottom3" None
           (Some "wordCount") H).
Defined.

(** ** The table sort *)

(** X9.  Sorting the table of a metric by a year column returns a
    rearrangement of the whole dataset that is in ascending (for "asc") or
    descending (for "desc") order of that year's value of the metric and
    keeps agencies with equal values in dataset order; an agency without a
    record of that year takes part with the value 0. *)
Theorem table_sorted_by_year_column
    (lc : string -> string -> comparison) (l : list Agency)
    (s : gmap string sortState) (metric : string) (y : Z) (dir : sortDirection) :
  s !! metric = Some {| column := Some (ColYear y); direction := Some dir |} ->
  exists sorted,
    getSortedAgencies lc l s metric = Ok sorted /\
    sorted ≡ₚ l /\
    StronglySorted
      (fun a b =>
         match dir with
         | asc => valueInYear metric y a <= valueInYear metric y b
         | desc => valueInYear metric y b <= valueInYear metric y a
         end)%Q sorted /\
    (forall q : Q,
        List.filter (fun a => Qeq_bool (valueInYear metric y a) q) sorted
        = List.filter (fun a => Qeq_bool (valueInYear metric y a) q) l) /\
    (forall a, (forall d, d ∈ data a -> year d <> y) ->
               valueInYear metric y a = 0%Q).
Proof.
  intros Hs. unfold getSortedAgencies. rewrite Hs. cbn [column direction].
  eexists. split; [reflexivity|]. split; [apply array_sort_perm|].
  split; [|split].
  - destruct dir.
    + change (sortComparator lc metric (ColYear y) asc)
        with (byValueAsc (valueInYear metric y)). apply sorted_asc.
    + change (sortComparator lc metric (ColYear y) desc)
        with (byValueDesc (valueInYear metric y)). apply sorted_desc.
  - intros q. destruct dir.
    + change (sortComparator lc metric (ColYear y) asc)
        with (byValueAsc (valueInYear metric y)). apply stable_asc.
    + change (sortComparator lc metric (ColYear y) desc)
        with (byValueDesc (valueInYear metric y)). apply stable_desc.
  - intros a Ha. unfold valueInYear.
    destruct (List.find (fun d => year d =? y) (data a)) as [d|] eqn:Hf; [|done].
    apply find_some in Hf as [Hd Hy]. apply Z.eqb_eq in Hy.
    destruct (Ha d); [by apply list_elem_of_In|done].
Qed.

Lemma table_sorted_by_year_column_witness :
  App2.initialSortStates !! "wordCount"
  = Some {| column := Some (ColYear 2025); direction := Some desc |} /\
  exists sorted,
    getSortedAgencies String.compare [oneYear; twoYears] App2.initialSortStates
      "wordCount" = Ok sorted /\
    sorted ≡ₚ [oneYear; twoYears] /\
    StronglySorted
      (fun a b => valueInYear "wordCount" 2025 b <= valueInYear "wordCount" 2025 a)%Q
      sorted /\
    (forall q : Q,
        List.filter (fun a => Qeq_bool (valueInYear "wordCount" 2025 a) q) sorted
        = List.filter (fun a => Qeq_bool (valueInYear "wordCount" 2025 a) q)
            [oneYear; twoYears]) /\
    (forall a, (forall d, d ∈ data a -> year d <> 2025) ->
               valueInYear "wordCount" 2025 a = 0%Q).
Proof.
  assert (H : App2.initialSortStates !! "wordCount"
              = Some {| column := Some (ColYear 2025); direction := Some desc |})
    by (vm_compute; reflexivity).
  split; [exact H|].
  exact (table_sorted_by_year_column String.compare [oneYear; twoYears]
           App2.initialSortStates "wordCount" 2025 desc H).
Defined.

(** ** Header clicks *)

(** X10.  A click on a header of a table that is not the column the table
    is sorted by always sorts ascending, whatever the direction was; it
    replaces the sort state of that table only and adds or removes no
    table. *)
Theorem click_on_other_column_sorts_ascending
    (metric : string) (col : sortColumn) (s : gmap string sortState) (st : sortState) :
  s !! metric = Some st ->
  column st <> Some col ->
  exists s',
    handleSort metric col s = Ok s' /\
    s' !! metric = Some {| column := Some col; direction := Some asc |} /\
    (forall other, other <> metric -> s' !! other = s !! other) /\
    dom s' = dom s.
Proof.
  intros Hs Hcol. rewrite (handleSort_lookup _ _ _ _ Hs).
  rewrite bool_decide_eq_false_2 by done. cbn [andb].
  eexists. split; [reflexivity|]. split_and!.
  - apply lookup_insert_eq.
  - intros other Hne. by rewrite lookup_insert_ne.
  - rewrite dom_insert_L. apply subseteq_union_1_L, singleton_subseteq_l.
    by apply (elem_of_dom_2 (D := gset string)) in Hs.
Qed.

Lemma click_on_other_column_sorts_ascending_witness :
  App2.initialSortStates !! "sentiment"
  = Some {| column := Some (ColYear 2025); direction := Some desc |} /\
  column {| column := Some (ColYear 2025); direction := Some desc |} <> Some ColAgency /\
  exists s',
    handleSort "sentiment" ColAgency App2.initialSortStates = Ok s' /\
    s' !! "sentiment" = Some {| column := Some ColAgency; direction := Some asc |} /\
    (forall other, other <> "sentiment" ->
                   s' !! other = App2.initialSortStates !! other) /\
    dom s' = dom App2.initialSortStates.
Proof.
  assert (H1 : App2.initialSortStates !! "sentiment"
               = Some {| column := Some (ColYear 2025); direction := Some desc |})
    by (vm_compute; reflexivity).
  assert (H2 : column {| column := Some (ColYear 2025); direction := Some desc |}
               <> Some ColAgency) by discriminate.
  split; [exact H1|]. split; [exact H2|].
  exact (click_on_other_column_sorts_ascending "sentiment" ColAgency
           App2.initialSortStates _ H1 H2).
Defined.

Lemma initialSortStates_keys (init : gmap string sortState) (k : string) :
  init = App1.initialSortStates \/ init = App2.initialSortStates ->
  is_Some (init !! k) <-> k ∈ metrics.
Proof.
  intros Hinit. split.
  - intros [st Hst].
    destruct (decide (k ∈ metrics)) as [|Hk]; [done|]. exfalso.
    assert (Hn : init !! k = None); [|congruence].
    destruct Hinit as [->| ->]; apply not_elem_of_list_to_map_1;
      by rewrite <- list_fmap_compose, list_fmap_id.
  - unfold metrics. rewrite !elem_of_cons, elem_of_nil.
    intros [->|[->|[->|[->|[]]]]]; destruct Hinit as [->| ->]; vm_compute; eauto.
Qed.

Lemma objectPrototypeNames_not_metrics (k : string) :
  k ∈ objectPrototypeNames -> k ∉ metrics.
Proof.
  unfold objectPrototypeNames, metrics. rewrite !elem_of_cons, !elem_of_nil.
  intros Hk Hm.
  repeat (destruct Hk as [->|Hk]; [intuition discriminate|]). done.
Qed.

(** X11.  From the initial sort states of either revision, whatever
    headers of the four tables are clicked, the sort states have exactly
    the four metrics as own keys: a click on a header of one of the tables
    returns, and the sort of each table returns a rearrangement of the
    dataset.  For a name that is no table, a property of
    [Object.prototype] stands in: [handleSort] then adds a sort state for
    that name, ascending, and [getSortedAgencies] returns the dataset as it
    is; for any remaining name both raise. *)
Theorem sort_states_keep_the_four_tables
    (lc : string -> string -> comparison) (l : list Agency)
    (init s : gmap string sortState) :
  init = App1.initialSortStates \/ init = App2.initialSortStates ->
  reachableSortStates init s ->
  (forall k, is_Some (s !! k) <-> k ∈ metrics) /\
  (forall k col, k ∈ metrics -> exists s', handleSort k col s = Ok s') /\
  (forall k, k ∈ metrics ->
             exists sorted, getSortedAgencies lc l s k = Ok sorted /\ sorted ≡ₚ l) /\
  (forall k col, k ∈ objectPrototypeNames ->
                 handleSort k col s
                 = Ok (<[k := {| column := Some col; direction := Some asc |}]> s) /\
                 getSortedAgencies lc l s k = Ok l) /\
  (forall k col, k ∉ metrics -> k ∉ objectPrototypeNames ->
                 handleSort k col s = TypeError /\
                 getSortedAgencies lc l s k = TypeError).
Proof.
  intros Hinit Hr.
  assert (Hkeys : forall k, is_Some (s !! k) <-> k ∈ metrics).
  { induction Hr as [|s s' metric col _ IH Hm Hc].
    - intros k. by apply initialSortStates_keys.
    - intros k. rewrite (handleSort_keys _ _ _ _ k (proj2 (IH metric) Hm) Hc).
      apply IH. }
  assert (Hnone : forall k, k ∉ metrics -> s !! k = None).
  { intros k Hk. destruct (s !! k) eqn:E; [|done]. destruct Hk. apply Hkeys. eauto. }
  split; [done|]. split_and!.
  - intros k col Hk. apply Hkeys in Hk as [st Hst].
    rewrite (handleSort_lookup _ _ _ _ Hst). eauto.
  - intros k Hk. apply getSortedAgencies_total. by apply Hkeys.
  - intros k col Hk. unfold handleSort, getSortedAgencies.
    rewrite (Hnone k (objectPrototypeNames_not_metrics k Hk)).
    by rewrite bool_decide_eq_true_2.
  - intros k col Hk Hp. unfold handleSort, getSortedAgencies.
    rewrite (Hnone k Hk). by rewrite bool_decide_eq_false_2.
Qed.

Lemma sort_states_keep_the_four_tables_witness :
  reachableSortStates App1.initialSortStates
    (<["wordCount" := {| column := Some ColAgency; direction := Some asc |}]>
       App1.initialSortStates) /\
  ("fileCount" ∉ metrics) /\
  ("fileCount" ∉ objectPrototypeNames) /\
  ("toString" ∈ objectPrototypeNames) /\
  (forall k,
      is_Some ((<["wordCount" := {| column := Some ColAgency; direction := Some asc |}]>
                  App1.initialSortStates) !! k)
      <-> k ∈ metrics) /\
  handleSort "fileCount" ColAgency
    (<["wordCount" := {| column := Some ColAgency; direction := Some asc |}]>
       App1.initialSortStates) = TypeError /\
  getSortedAgencies String.compare [agencyA]
    (<["wordCount" := {| column := Some ColAgency; direction := Some asc |}]>
       App1.initialSortStates) "toString" = Ok [agencyA].
Proof.
  assert (H : reachableSortStates App1.initialSortStates
                (<["wordCount" := {| column := Some ColAgency; direction := Some asc |}]>
                   App1.initialSortStates)).
  { eapply (reach_click _ _ _ "wordCount" ColAgency); [apply reach_init| |].
    - unfold metrics. apply list_elem_of_here.
    - vm_compute. reflexivity. }
  assert (H1 : "fileCount" ∉ metrics).
  { unfold metrics. rewrite !not_elem_of_cons.
    split_and!; try discriminate. apply not_elem_of_nil. }
  assert (H2 : "fileCount" ∉ objectPrototypeNames).
  { unfold objectPrototypeNames. rewrite !not_elem_of_cons.
    split_and!; try discriminate. apply not_elem_of_nil. }
  assert (H3 : "toString" ∈ objectPrototypeNames).
  { unfold objectPrototypeNames. rewrite !elem_of_cons. auto 10. }
  destruct (sort_states_keep_the_four_tables String.compare [agencyA]
              App1.initialSortStates _ (or_introl eq_refl) H)
    as (K1 & _ & _ & K4 & K5).
  split; [exact H|]. split; [exact H1|]. split; [exact H2|]. split; [exact H3|].
  split; [exact K1|]. split.
  - exact (proj1 (K5 "fileCount" ColAgency H1 H2)).
  - exact (proj2 (K4 "toString" ColAgency H3)).
Defined.

(** ** Pages *)

Lemma slice_nonneg {A} (l : list A) (a b : nat) :
  (a <= b)%nat ->
  slice l (Z.of_nat a) (Z.of_nat b) = take (b - a) (drop a l).
Proof.
  intros Hab. unfold slice.
  destruct (Z.ltb_spec (Z.of_nat a) 0); [lia|].
  destruct (Z.ltb_spec (Z.of_nat b) 0); [lia|].
  destruct (Nat.le_gt_cases a (length l)) as [Ha|Ha].
  - rewrite (Z.min_l (Z.of_nat a)) by lia. rewrite Nat2Z.id.
    destruct (Nat.le_gt_cases b (length l)) as [Hb|Hb].
    + rewrite Z.min_l by lia. f_equal. lia.
    + rewrite Z.min_r by lia.
      rewrite !take_ge; [done|rewrite length_drop; lia|rewrite length_drop; lia].
  - rewrite !Z.min_r by lia. rewrite Z.sub_diag, Nat2Z.id. cbn [Z.to_nat take].
    rewrite (drop_ge l a) by lia. by destruct (b - a)%nat.
Qed.

Lemma pageSlice_chunk (rows : list Agency) (i : nat) :
  pageSlice rows (Z.of_nat (S i)) = take 5 (drop (5 * i) rows).
Proof.
  unfold pageSlice, agenciesPerPage.
  replace ((Z.of_nat (S i) - 1) * 5) with (Z.of_nat (5 * i)) by lia.
  replace (Z.of_nat (5 * i) + 5) with (Z.of_nat (5 * i + 5)) by lia.
  rewrite slice_nonneg by lia. f_equal. lia.
Qed.

Lemma chunks_concat {A} (rows : list A) (k : nat) :
  (length rows <= 5 * k)%nat ->
  concat (map (fun i => take 5 (drop (5 * i) rows)) (seq 0 k)) = rows.
Proof.
  revert rows. induction k as [|k IH]; intros rows Hlen.
  { destruct rows; [done|cbn in Hlen; lia]. }
  cbn [seq map concat]. rewrite <- seq_shift, map_map.
  rewrite (map_ext _ (fun i => take 5 (drop (5 * i) (drop 5 rows)))).
  - rewrite IH by (rewrite length_drop; lia). apply take_drop.
  - intros i. rewrite drop_drop. do 2 f_equal. lia.
Qed.

(** X12.  The pages cut the rows of a table without loss or overlap: for
    rows as many as the dataset has agencies, the pages 1 to [totalPages]
    put one after the other are the rows; no page has more than five rows;
    every page from 1 to [totalPages] has a row; a page after the last,
    and page 0, have none. *)
Theorem pages_partition_the_rows (agencies rows : list Agency) :
  length rows = length agencies ->
  concat (map (fun p => pageSlice rows (Z.of_nat p))
              (seq 1 (Z.to_nat (totalPages agencies))))
  = rows /\
  (forall p, (length (pageSlice rows p) <= 5)%nat) /\
  (forall p, 1 <= p <= totalPages agencies -> pageSlice rows p <> []) /\
  (forall p, totalPages agencies < p -> pageSlice rows p = []) /\
  pageSlice rows 0 = [].
Proof.
  intros Hlen. pose proof (totalPages_ceiling agencies) as Hc.
  rewrite <- Hlen in Hc. split_and!.
  - rewrite <- seq_shift, map_map.
    rewrite (map_ext _ (fun i => take 5 (drop (5 * i) rows)))
      by (intros i; apply pageSlice_chunk).
    apply chunks_concat. lia.
  - intros p. unfold pageSlice, slice, agenciesPerPage. rewrite length_take.
    destruct (Z.ltb_spec ((p - 1) * 5) 0), (Z.ltb_spec ((p - 1) * 5 + 5) 0); lia.
  - intros p Hp. replace p with (Z.of_nat (S (Z.to_nat (p - 1)))) by lia.
    rewrite pageSlice_chunk. intros Hnil.
    apply (f_equal length) in Hnil. rewrite length_take, length_drop in Hnil.
    cbn [length] in Hnil. lia.
  - intros p Hp. replace p with (Z.of_nat (S (Z.to_nat (p - 1)))) by lia.
    rewrite pageSlice_chunk. rewrite drop_ge by lia. done.
  - unfold pageSlice, slice, agenciesPerPage.
    change ((0 - 1) * 5) with (-5). change (-5 + 5) with 0.
    change (-5 <? 0) with true. change (0 <? 0) with false. cbv iota.
    replace (Z.to_nat (0 `min` Z.of_nat (length rows)
                       - (Z.of_nat (length rows) + -5) `max` 0)) with 0%nat by lia.
    done.
Qed.

Lemma pages_partition_the_rows_witness :
  length (rev twelveAgencies) = length twelveAgencies /\
  concat (map (fun p => pageSlice (rev twelveAgencies) (Z.of_nat p))
              (seq 1 (Z.to_nat (totalPages twelveAgencies))))
  = rev twelveAgencies.
Proof.
  assert (H : length (rev twelveAgencies) = length twelveAgencies)
    by (vm_compute; reflexivity).
  split; [exact H|].
  exact (proj1 (pages_partition_the_rows twelveAgencies (rev twelveAgencies) H)).
Defined.

(** X13.  While the current page is in [1, totalPages], a button is
    disabled exactly when a click on it would change nothing: Previous on
    page 1 and Next on the last page; an enabled button moves the page by
    one and keeps it in the range. *)
Theorem disabled_buttons_are_the_noops (l : list Agency) (st : AppState) :
  1 <= currentPage st <= totalPages l ->
  (previousDisabled st = true <-> onPrevious st = st) /\
  (nextDisabled l st = true <-> onNext l st = st) /\
  (previousDisabled st = false ->
   currentPage (onPrevious st) = currentPage st - 1 /\
   1 <= currentPage (onPrevious st) <= totalPages l) /\
  (nextDisabled l st = false ->
   currentPage (onNext l st) = currentPage st + 1 /\
   1 <= currentPage (onNext l st) <= totalPages l).
Proof.
  destruct st as [sel page]. unfold previousDisabled, nextDisabled, onPrevious, onNext.
  cbn [currentPage selectedAgencies]. intros Hp. split_and!.
  - rewrite Z.eqb_eq. split; [intros ->; done|]. intros [= H]. lia.
  - rewrite Z.eqb_eq. split; [intros ->; f_equal; lia|]. intros [= H]. lia.
  - intros H%Z.eqb_neq. lia.
  - intros H%Z.eqb_neq. lia.
Qed.

Lemma disabled_buttons_are_the_noops_witness :
  1 <= currentPage {| selectedAgencies := []; currentPage := 2 |}
    <= totalPages twelveAgencies /\
  (nextDisabled twelveAgencies {| selectedAgencies := []; currentPage := 2 |} = true
   <-> onNext twelveAgencies {| selectedAgencies := []; currentPage := 2 |}
       = {| selectedAgencies := []; currentPage := 2 |}).
Proof.
  assert (H : 1 <= currentPage {| selectedAgencies := []; currentPage := 2 |}
              <= totalPages twelveAgencies) by (vm_compute; split; discriminate).
  split; [exact H|].
  exact (proj1 (proj2 (disabled_buttons_are_the_noops twelveAgencies
                         {| selectedAgencies := []; currentPage := 2 |} H))).
Defined.

(** ** The charts *)

Lemma map_imap_const {A B C} (g : B -> C) (h : A -> C) (l : list A) :
  forall f : nat -> A -> B,
    (forall i x, g (f i x) = h x) -> map g (imap f l) = map h l.
Proof.
  induction l as [|x l IH]; intros f H; [done|].
  cbn. rewrite H. f_equal. apply IH. intros i y. apply H.
Qed.

Lemma colorOf_defined (index : nat) :
  exists c, colorOf index = Some c /\ c ∈ colors.
Proof.
  unfold colorOf.
  destruct (lookup_lt_is_Some_2 colors (index mod length colors)) as [c Hc].
  { apply Nat.mod_upper_bound. discriminate. }
  exists c. split; [done|]. by eapply list_elem_of_lookup_2.
Qed.

Lemma StronglySorted_filter {A} (R : A -> A -> Prop) (f : A -> bool) (l : list A) :
  StronglySorted R l -> StronglySorted R (List.filter f l).
Proof.
  induction 1 as [|x l Hl IH Hx]; cbn; [constructor|].
  destruct (f x); [|done]. constructor; [done|].
  rewrite Forall_forall in *. intros y [Hy _]%filter_elem_of. auto.
Qed.

Lemma precedes_year (d1 d2 : AgencyData) :
  precedes (fun d1 d2 => Some (inject_Z (year d1 - year d2))) d1 d2
  <-> year d1 <= year d2.
Proof.
  unfold precedes, sort_order. rewrite <- Qle_alt. unfold Qle. cbn. lia.
Qed.

(** X14.  The earlier chart section draws one dataset per selected agency,
    in the order of the selection and labelled with the agency's name; it
    plots one value for each record of 2024 or 2025 of the agency; every
    dataset has a colour of the palette, the one at its position modulo 5,
    so that datasets five positions apart share their colour. *)
Theorem chart1_datasets_follow_selection
    (fdiv : Q -> Q -> Q) (agencies : list Agency) (metric : AgencyDataKey) :
  labels (createChartData1 fdiv agencies metric) = [2024; 2025] /\
  map Dataset.label (datasets (createChartData1 fdiv agencies metric))
  = map agency agencies /\
  (forall i ds,
      datasets (createChartData1 fdiv agencies metric) !! i = Some ds ->
      exists a c,
        agencies !! i = Some a /\
        Dataset.label ds = agency a /\
        length (Dataset.data ds)
        = length (List.filter (fun d => existsb (Z.eqb (year d)) years) (data a)) /\
        Dataset.backgroundColor ds = Some c /\
        Dataset.borderColor ds = Some c /\
        colors !! (i mod 5)%nat = Some c) /\
  (forall i ds ds',
      datasets (createChartData1 fdiv agencies metric) !! i = Some ds ->
      datasets (createChartData1 fdiv agencies metric) !! (i + 5)%nat = Some ds' ->
      Dataset.backgroundColor ds' = Dataset.backgroundColor ds).
Proof.
  split; [done|]. split; [by apply map_imap_const|]. split.
  - intros i ds Hds. cbn [datasets createChartData1] in Hds.
    rewrite list_lookup_imap in Hds.
    destruct (agencies !! i) as [a|]; [|discriminate].
    cbn in Hds. injection Hds as <-.
    destruct (colorOf_defined i) as (c & Hc & _).
    exists a, c. cbn. rewrite length_map. by rewrite Hc.
  - intros i ds ds' Hds Hds'. cbn [datasets createChartData1] in Hds, Hds'.
    rewrite list_lookup_imap in Hds, Hds'.
    destruct (agencies !! i); [|discriminate].
    destruct (agencies !! (i + 5)%nat); [|discriminate].
    cbn in Hds, Hds'. injection Hds as <-. injection Hds' as <-. cbn.
    unfold colorOf. f_equal. change (length colors) with 5%nat.
    rewrite <- (Nat.Div0.add_mod_idemp_r i 5 5). by rewrite Nat.Div0.mod_same, Nat.add_0_r.
Qed.

(** X15.  The later chart section draws one dataset per selected agency in
    the order of the agencies' totals, the sum of the metric over the
    records of 2024 and 2025: descending for "desc", ascending for "asc",
    agencies with equal totals in the order of the selection.  The colour
    of a dataset is the palette colour of its rank modulo 5. *)
Theorem chart2_bars_ordered_by_total
    (fadd fdiv : Q -> Q -> Q) (agencies : list Agency) (m : Metric)
    (dir : sortDirection) :
  exists sorted,
    map Dataset.label (datasets (createChartData2 fadd fdiv agencies m dir))
    = map agency sorted /\
    sorted ≡ₚ agencies /\
    StronglySorted
      (fun a b =>
         match dir with
         | asc => chartTotal fadd m a <= chartTotal fadd m b
         | desc => chartTotal fadd m b <= chartTotal fadd m a
         end)%Q sorted /\
    (forall q : Q,
        List.filter (fun a => Qeq_bool (chartTotal fadd m a) q) sorted
        = List.filter (fun a => Qeq_bool (chartTotal fadd m a) q) agencies) /\
    (forall i ds,
        datasets (createChartData2 fadd fdiv agencies m dir) !! i = Some ds ->
        exists c, Dataset.backgroundColor ds = Some c /\
                  Dataset.borderColor ds = Some c /\
                  colors !! (i mod 5)%nat = Some c).
Proof.
  exists (sortedAgencies fadd agencies m dir). split_and!.
  - by apply map_imap_const.
  - apply array_sort_perm.
  - destruct dir.
    + change (sortedAgencies fadd agencies m asc)
        with (array_sort (byValueAsc (chartTotal fadd m)) agencies). apply sorted_asc.
    + change (sortedAgencies fadd agencies m desc)
        with (array_sort (byValueDesc (chartTotal fadd m)) agencies). apply sorted_desc.
  - intros q. destruct dir.
    + change (sortedAgencies fadd agencies m asc)
        with (array_sort (byValueAsc (chartTotal fadd m)) agencies). apply stable_asc.
    + change (sortedAgencies fadd agencies m desc)
        with (array_sort (byValueDesc (chartTotal fadd m)) agencies). apply stable_desc.
  - intros i ds Hds. cbn [datasets createChartData2] in Hds.
    rewrite list_lookup_imap in Hds.
    destruct (sortedAgencies fadd agencies m dir !! i) as [a|]; [|discriminate].
    cbn in Hds. injection Hds as <-.
    destruct (colorOf_defined i) as (c & Hc & _). exists c. cbn. by rewrite Hc.
Qed.

Lemma plottedRecords_ascending (a : Agency) :
  ascendingYears a ->
  plottedRecords a
  = List.filter (fun d => existsb (Z.eqb (year d)) years) (data a).
Proof.
  intros Hasc. apply array_sort_sorted_id.
  apply (StronglySorted_weaken (fun d1 d2 => year d1 <= year d2)).
  { intros d1 d2 _ _. apply precedes_year. }
  by apply StronglySorted_filter.
Qed.

(** X16.  The records a dataset of the later chart section plots are the
    records of 2024 and 2025 of the agency put in ascending year order,
    records of the same year in the order of the series; for a series that
    is already in ascending year order they are plotted in the order of
    the series. *)
Theorem chart2_points_in_year_order (a : Agency) :
  plottedRecords a
  ≡ₚ List.filter (fun d => existsb (Z.eqb (year d)) years) (data a) /\
  StronglySorted (fun d1 d2 => year d1 <= year d2) (plottedRecords a) /\
  (forall d, d ∈ plottedRecords a <->
             d ∈ data a /\ (year d = 2024 \/ year d = 2025)) /\
  (forall y, List.filter (fun d => year d =? y) (plottedRecords a)
             = List.filter (fun d => year d =? y)
                 (List.filter (fun d => existsb (Z.eqb (year d)) years) (data a))) /\
  (ascendingYears a ->
   plottedRecords a
   = List.filter (fun d => existsb (Z.eqb (year d)) years) (data a)).
Proof.
  unfold plottedRecords.
  set (cmp := fun d1 d2 : AgencyData => Some (inject_Z (year d1 - year d2))).
  set (kept := List.filter (fun d => existsb (Z.eqb (year d)) years) (data a)).
  split_and!.
  - apply array_sort_perm.
  - apply (StronglySorted_weaken (precedes cmp)).
    { intros d1 d2 _ _. apply precedes_year. }
    apply array_sort_sorted; unfold cmp.
    + intros x y z. rewrite !precedes_year. lia.
    + intros x y. rewrite !precedes_year. lia.
  - intros d. rewrite (array_sort_perm cmp kept). unfold kept.
    rewrite filter_elem_of. cbn. rewrite !orb_true_iff, !Z.eqb_eq.
    intuition discriminate.
  - intros y. apply array_sort_stable. intros d1 d2 H1%Z.eqb_eq H2%Z.eqb_eq.
    apply precedes_year. lia.
  - apply plottedRecords_ascending.
Qed.

Lemma chart2_points_in_year_order_witness :
  ascendingYears twoYears /\
  plottedRecords twoYears
  = List.filter (fun d => existsb (Z.eqb (year d)) years) (data twoYears).
Proof.
  assert (H : ascendingYears twoYears).
  { unfold ascendingYears. cbn. repeat constructor. discriminate. }
  split; [exact H|].
  exact (proj2 (proj2 (proj2 (proj2 (chart2_points_in_year_order twoYears)))) H).
Defined.

(** X17.  When no two selected agencies have the same total, a click on
    the title of a chart of the later chart section, which switches
    between "desc" and "asc", puts the bars in the opposite order. *)
Theorem chart2_toggle_reverses_bars
    (fadd fdiv : Q -> Q -> Q) (agencies : list Agency) (m : Metric) :
  distinctValues (chartTotal fadd m) agencies ->
  sortedAgencies fadd agencies m asc = rev (sortedAgencies fadd agencies m desc) /\
  map Dataset.label (datasets (createChartData2 fadd fdiv agencies m asc))
  = rev (map Dataset.label (datasets (createChartData2 fadd fdiv agencies m desc))).
Proof.
  intros Hd.
  assert (H : sortedAgencies fadd agencies m asc
              = rev (sortedAgencies fadd agencies m desc)).
  { change (sortedAgencies fadd agencies m asc)
      with (array_sort (byValueAsc (chartTotal fadd m)) agencies).
    change (sortedAgencies fadd agencies m desc)
      with (array_sort (byValueDesc (chartTotal fadd m)) agencies).
    by apply sort_asc_rev_desc. }
  split; [done|]. cbn [datasets createChartData2].
  rewrite (map_imap_const Dataset.label agency (sortedAgencies fadd agencies m asc))
    by done.
  rewrite (map_imap_const Dataset.label agency (sortedAgencies fadd agencies m desc))
    by done.
  by rewrite H, map_rev.
Qed.

Lemma chart2_toggle_reverses_bars_witness :
  distinctValues (chartTotal Qplus WordCount) [agencyA; agencyB] /\
  sortedAgencies Qplus [agencyA; agencyB] WordCount asc
  = rev (sortedAgencies Qplus [agencyA; agencyB] WordCount desc).
Proof.
  assert (H : distinctValues (chartTotal Qplus WordCount) [agencyA; agencyB]).
  { intros i j a b Hi Hj Hv.
    destruct i as [|[|i]]; try discriminate Hi;
      destruct j as [|[|j]]; try discriminate Hj;
      try reflexivity;
      vm_compute in Hi, Hj; injection Hi as <-; injection Hj as <-;
      vm_compute in Hv; discriminate Hv. }
  split; [exact H|].
  exact (proj1 (chart2_toggle_reverses_bars Qplus Qdiv [agencyA; agencyB] WordCount H)).
Defined.

(** X18.  On a selection whose series are all in ascending year order the
    later chart section draws the datasets the earlier one draws for the
    same agencies put in the order of their totals: the same names, values
    and colours.  The labels of the axis are the same two years, numbers
    in the earlier chart section and their strings in the later one. *)
Theorem chart2_is_chart1_of_sorted_agencies
    (fadd fdiv : Q -> Q -> Q) (agencies : list Agency) (m : Metric)
    (dir : sortDirection) :
  Forall ascendingYears agencies ->
  datasets (createChartData2 fadd fdiv agencies m dir)
  = datasets (createChartData1 fdiv (sortedAgencies fadd agencies m dir)
                (KeyMetric m)) /\
  labels (createChartData2 fadd fdiv agencies m dir)
  = map yearString
      (labels (createChartData1 fdiv (sortedAgencies fadd agencies m dir)
                 (KeyMetric m))) /\
  labels (createChartData2 fadd fdiv agencies m dir) = ["2024"; "2025"].
Proof.
  intros Hasc. split; [|split; [done|by vm_compute]].
  cbn [datasets createChartData2 createChartData1].
  apply imap_ext. intros i a Ha. cbn beta.
  rewrite plottedRecords_ascending.
  - reflexivity.
  - rewrite Forall_forall in Hasc. apply Hasc.
    apply list_elem_of_lookup_2 in Ha. unfold sortedAgencies in Ha.
    by rewrite array_sort_perm in Ha.
Qed.

Lemma chart2_is_chart1_of_sorted_agencies_witness :
  Forall ascendingYears [oneYear; twoYears] /\
  datasets (createChartData2 Qplus Qdiv [oneYear; twoYears] WordCount desc)
  = datasets (createChartData1 Qdiv
                (sortedAgencies Qplus [oneYear; twoYears] WordCount desc)
                (KeyMetric WordCount)).
Proof.
  assert (H : Forall ascendingYears [oneYear; twoYears]).
  { unfold ascendingYears. cbn. repeat constructor. discriminate. }
  split; [exact H|].
  exact (proj1 (chart2_is_chart1_of_sorted_agencies Qplus Qdiv [oneYear; twoYears]
                  WordCount desc H)).
Defined.

(** ** Search, again *)

Lemma append_assoc_string (s t u : string) :
  ((s ++ t) ++ u)%string = (s ++ t ++ u)%string.
Proof.
  induction s as [|c s IH]; [done|]. rewrite !append_String. by rewrite IH.
Qed.

(** A text that occurs in a text that occurs in [s] occurs in [s]. *)
Lemma includes_trans (s t sub : string) :
  includes s t = true -> includes t sub = true -> includes s sub = true.
Proof.
  rewrite !includes_spec. intros (p & q & ->) (p' & q' & ->).
  exists (p ++ p')%string, (q' ++ q)%string.
  by rewrite !append_assoc_string.
Qed.

Lemma filter_sublist_impl {A} (f g : A -> bool) (l : list A) :
  (forall x, f x = true -> g x = true) ->
  List.filter f l `sublist_of` List.filter g l.
Proof.
  intros H. induction l as [|x l IH]; cbn; [constructor|].
  destruct (f x) eqn:Hf.
  - rewrite (H x Hf). by constructor.
  - destruct (g x); [by constructor|done].
Qed.

(** X19.  A search text whose lower-case form contains the lower-case
    form of another, non-empty search text can only narrow the result:
    every agency found for it is found for the other text, in both
    revisions, and the agencies found keep the order of the dataset. *)
Theorem longer_query_narrows_search (l : list Agency) (text text' : string) :
  text <> "" ->
  includes (toLowerCase text') (toLowerCase text) = true ->
  exists found found',
    handleSearch (App1.filtered l) text = Ok found /\
    handleSearch (App1.filtered l) text' = Ok found' /\
    handleSearch (App2.filtered l) text' = Ok found' /\
    found' `sublist_of` found /\
    found `sublist_of` l.
Proof.
  intros Htext Hocc.
  assert (Hsearch : forall t, toLowerCase t <> "" ->
            App1.filtered l "search" None (Some (toLowerCase t))
            = Ok (List.filter
                    (fun a => includes (toLowerCase (agency a)) (toLowerCase t)) l)).
  { intros t Ht. unfold App1.filtered. cbn.
    by destruct (String.eqb_spec (toLowerCase t) "") as [He|_]. }
  assert (Hlow : toLowerCase text <> "").
  { intros He. by apply (proj1 (toLowerCase_empty text)) in He. }
  assert (Hlong : toLowerCase text' <> "").
  { intros He. rewrite He in Hocc. apply includes_spec in Hocc as (p & q & Hpq).
    destruct p; [|discriminate Hpq]. cbn in Hpq.
    destruct (toLowerCase text); [done|discriminate Hpq]. }
  eexists _, _. unfold handleSearch.
  rewrite App2_filtered_unsorted by (intros [H|H]; discriminate H).
  rewrite (Hsearch _ Hlow), (Hsearch _ Hlong).
  split; [done|]. split; [done|]. split; [done|]. split; [|apply filter_sublist].
  apply filter_sublist_impl. intros a Ha. by apply (includes_trans _ _ _ Ha).
Qed.

Lemma longer_query_narrows_search_witness :
  "treas" <> "" /\
  includes (toLowerCase "Treasury") (toLowerCase "treas") = true /\
  exists found found',
    handleSearch (App1.filtered [agencyA; treasury]) "treas" = Ok found /\
    handleSearch (App1.filtered [agencyA; treasury]) "Treasury" = Ok found' /\
    handleSearch (App2.filtered [agencyA; treasury]) "Treasury" = Ok found' /\
    found' `sublist_of` found /\
    found `sublist_of` [agencyA; treasury].
Proof.
  assert (H : "treas" <> "") by discriminate.
  assert (H' : includes (toLowerCase "Treasury") (toLowerCase "treas") = true)
    by (vm_compute; reflexivity).
  split; [exact H|]. split; [exact H'|].
  exact (longer_query_narrows_search [agencyA; treasury] "treas" "Treasury" H H').
Defined.

(** ** The table sorted by name *)

Lemma sort_order_number_of_comparison (c : comparison) :
  sort_order (number_of_comparison c) = c.
Proof. by destruct c. Qed.

(** X20.  For a collation that is a consistent order (comparing the other
    way round gives the opposite result, and "not after" is transitive),
    sorting a table by the Agency column returns a rearrangement of the
    dataset in which no agency comes before one that collates before it
    (for "asc"; after it, for "desc"), agencies whose names collate as
    equal staying in dataset order. *)
Theorem table_sorted_by_agency_column
    (lc : string -> string -> comparison) (l : list Agency)
    (s : gmap string sortState) (metric : string) (dir : sortDirection) :
  (forall x y, lc x y = CompOpp (lc y x)) ->
  (forall x y z, lc x y <> Gt -> lc y z <> Gt -> lc x z <> Gt) ->
  s !! metric = Some {| column := Some ColAgency; direction := Some dir |} ->
  exists sorted,
    getSortedAgencies lc l s metric = Ok sorted /\
    sorted ≡ₚ l /\
    StronglySorted
      (fun a b =>
         match dir with
         | asc => lc (agency a) (agency b) <> Gt
         | desc => lc (agency b) (agency a) <> Gt
         end) sorted /\
    (forall name,
        List.filter (fun a => bool_decide (lc (agency a) name = Eq)) sorted
        = List.filter (fun a => bool_decide (lc (agency a) name = Eq)) l).
Proof.
  intros Hanti Htrans Hs. unfold getSortedAgencies. rewrite Hs. cbn [column direction].
  assert (Hprec : forall a b,
             precedes (sortComparator lc metric ColAgency dir) a b
             <-> match dir with
                 | asc => lc (agency a) (agency b) <> Gt
                 | desc => lc (agency b) (agency a) <> Gt
                 end).
  { intros a b. unfold precedes, sortComparator.
    destruct dir; by rewrite sort_order_number_of_comparison. }
  assert (Hflip : forall x y, lc x y = Gt -> lc y x <> Gt).
  { intros x y H. rewrite Hanti, H. discriminate. }
  eexists. split; [reflexivity|]. split; [apply array_sort_perm|]. split.
  - apply (StronglySorted_weaken (precedes (sortComparator lc metric ColAgency dir))).
    { intros a b _ _. apply Hprec. }
    apply array_sort_sorted.
    + intros x y z. rewrite !Hprec. destruct dir; eauto.
    + intros x y. rewrite !Hprec.
      destruct dir.
      * destruct (lc (agency x) (agency y)) eqn:E; [left|left|right];
          try congruence. by apply Hflip.
      * destruct (lc (agency y) (agency x)) eqn:E; [left|left|right];
          try congruence. by apply Hflip.
  - intros name. apply array_sort_stable.
    intros x y Hx%bool_decide_eq_true_1 Hy%bool_decide_eq_true_1.
    assert (Hy' : lc name (agency y) = Eq) by (by rewrite Hanti, Hy).
    assert (Hx' : lc name (agency x) = Eq) by (by rewrite Hanti, Hx).
    apply Hprec. destruct dir.
    + apply (Htrans _ name); congruence.
    + apply (Htrans _ name); congruence.
Qed.

(** A collation for the example: names compared by their length. *)
Lemma table_sorted_by_agency_column_witness :
  let lc := fun x y : string => Nat.compare (String.length x) (String.length y) in
  let s := <["wordCount" := {| column := Some ColAgency; direction := Some asc |}]>
             App1.initialSortStates in
  (forall x y, lc x y = CompOpp (lc y x)) /\
  (forall x y z, lc x y <> Gt -> lc y z <> Gt -> lc x z <> Gt) /\
  s !! "wordCount" = Some {| column := Some ColAgency; direction := Some asc |} /\
  exists sorted,
    getSortedAgencies lc [treasury; agencyA] s "wordCount" = Ok sorted /\
    sorted ≡ₚ [treasury; agencyA] /\
    StronglySorted (fun a b => lc (agency a) (agency b) <> Gt) sorted /\
    (forall name,
        List.filter (fun a => bool_decide (lc (agency a) name = Eq)) sorted
        = List.filter (fun a => bool_decide (lc (agency a) name = Eq))
            [treasury; agencyA]).
Proof.
  intros lc s.
  assert (H1 : forall x y, lc x y = CompOpp (lc y x))
    by (intros x y; apply Nat.compare_antisym).
  assert (H2 : forall x y z, lc x y <> Gt -> lc y z <> Gt -> lc x z <> Gt).
  { unfold lc. intros x y z. rewrite !Nat.compare_gt_iff. lia. }
  assert (H3 : s !! "wordCount"
               = Some {| column := Some ColAgency; direction := Some asc |})
    by apply lookup_insert_eq.
  split; [exact H1|]. split; [exact H2|]. split; [exact H3|].
  exact (table_sorted_by_agency_column lc [treasury; agencyA] s "wordCount" asc
           H1 H2 H3).
Defined.

(** ** Examples for the charts *)

Lemma chart1_datasets_follow_selection_witness :
  exists ds,
    datasets (createChartData1 Qdiv fourAgencies (KeyMetric WordCount)) !! 0%nat
    = Some ds /\
    exists a c,
      fourAgencies !! 0%nat = Some a /\
      Dataset.label ds = agency a /\
      length (Dataset.data ds)
      = length (List.filter (fun d => existsb (Z.eqb (year d)) years) (data a)) /\
      Dataset.backgroundColor ds = Some c /\
      Dataset.borderColor ds = Some c /\
      colors !! (0 mod 5)%nat = Some c.
Proof.
  destruct (datasets (createChartData1 Qdiv fourAgencies (KeyMetric WordCount)) !! 0%nat)
    as [ds|] eqn:Hds; [|vm_compute in Hds; discriminate Hds].
  exists ds. split; [reflexivity|].
  exact (proj1 (proj2 (proj2 (chart1_datasets_follow_selection Qdiv fourAgencies
                                (KeyMetric WordCount)))) 0%nat ds Hds).
Defined.

Lemma chart2_bars_ordered_by_total_witness :
  exists sorted,
    map Dataset.label
      (datasets (createChartData2 Qplus Qdiv fourAgencies WordCount desc))
    = map agency sorted /\
    sorted ≡ₚ fourAgencies /\
    StronglySorted
      (fun a b => chartTotal Qplus WordCount b <= chartTotal Qplus WordCount a)%Q
      sorted.
Proof.
  destruct (chart2_bars_ordered_by_total Qplus Qdiv fourAgencies WordCount desc)
    as (sorted & H1 & H2 & H3 & _).
  exists sorted. split; [exact H1|]. split; [exact H2|exact H3].
Defined.
